(** * The questions router of the interview portal

    A shallow embedding of
    [apps/portal/src/server/router/questions-question-router.ts]:
    the nine procedures [getQuestionsByFilter], [getQuestionById],
    [create], [update], [delete], [getVote], [createVote], [updateVote]
    and [deleteVote], each modelled by its [resolve] function.

    Conventions.
    - A [Date] is the integer it compares as (its millisecond time value),
      a JavaScript [number] that only ever counts rows or votes is an
      integer of [Z].
    - The enums [Vote] and [QuestionsQuestionType] of the generated client
      are strings at run time; a member is the string of its own name.
    - [undefined] (an absent session user, an optional input left out) and
      [null] (an empty column) are both [None] where only one of them can
      occur; where the router compares them, [JsValue] keeps them apart.
    - A resolver is a function from the stored tables to the tables it
      leaves behind and what it returned or threw; a thrown error does not
      undo the writes made before it. *)

From Stdlib Require Import String List ZArith Bool Lia.
From Stdlib Require Import Sorting.Sorted Sorting.Permutation.
Import ListNotations.

#[local] Open Scope string_scope.
#[local] Open Scope Z_scope.

(** ** JavaScript values that the ownership checks compare *)

Inductive JsValue : Type :=
| JsUndefined
| JsNull
| JsString (s : string).

(** [a === b] on the values above. *)
Definition strict_equals (a b : JsValue) : bool :=
  match a, b with
  | JsUndefined, JsUndefined => true
  | JsNull, JsNull => true
  | JsString s, JsString t => String.eqb s t
  | _, _ => false
  end.

(** [a !== b]. *)
Definition strict_differs (a b : JsValue) : bool := negb (strict_equals a b).

(** A value that is a string or [undefined]. *)
Definition orUndefined (o : option string) : JsValue :=
  match o with Some s => JsString s | None => JsUndefined end.

(** A value that is a string or [null]. *)
Definition orNull (o : option string) : JsValue :=
  match o with Some s => JsString s | None => JsNull end.

(** [a ?? d]. *)
Definition nullish {A : Type} (a : option A) (d : A) : A :=
  match a with Some x => x | None => d end.

(** [xs.includes(x)] for an array of strings and a string or [null]. *)
Definition includes (xs : list string) (x : option string) : bool :=
  match x with
  | Some s => existsb (String.eqb s) xs
  | None => false
  end.

Definition option_eqb (a b : option string) : bool :=
  match a, b with
  | Some s, Some t => String.eqb s t
  | None, None => true
  | _, _ => false
  end.

(** ** Outcomes and resolvers *)

Inductive TRPCCode : Type := NOT_FOUND | UNAUTHORIZED.

Inductive PrismaFailure : Type :=
| RecordNotFound          (* update or delete of a row that is not stored *)
| UniqueConstraintFailed  (* a write that would break a uniqueness constraint *)
| MissingArgument.        (* a key of a read with a part left [undefined] *)

Inductive Thrown : Type :=
| TRPCError (code : TRPCCode)
| TypeError                       (* a property read on [undefined] *)
| PrismaError (f : PrismaFailure).

Inductive Outcome (A : Type) : Type :=
| Returns (a : A)
| Throws (e : Thrown).
Arguments Returns {A} a.
Arguments Throws {A} e.

Definition bindO {A B : Type} (o : Outcome A) (k : A -> Outcome B) : Outcome B :=
  match o with
  | Returns a => k a
  | Throws e => Throws e
  end.

(** [xs.map(f)] where [f] may throw: the first throw ends the map. *)
Fixpoint mapO {A B : Type} (f : A -> Outcome B) (xs : list A) : Outcome (list B) :=
  match xs with
  | [] => Returns []
  | x :: rest =>
      bindO (f x) (fun y => bindO (mapO f rest) (fun ys => Returns (y :: ys)))
  end.

(** ** Rows *)

Module User.
Record t : Type := mk { id : string; name : option string }.
End User.

Module QuestionsQuestion.
Record t : Type := mk {
  id : string;
  userId : option string;
  content : string;
  questionType : string;
  createdAt : Z;
  updatedAt : Z
}.
End QuestionsQuestion.

Module QuestionsQuestionEncounter.
Record t : Type := mk {
  id : string;
  questionId : string;
  userId : option string;
  company : string;
  location : option string;
  role : option string;
  seenAt : Z
}.
End QuestionsQuestionEncounter.

Module QuestionsQuestionVote.
Record t : Type := mk {
  id : string;
  questionId : string;
  userId : option string;
  vote : string
}.
End QuestionsQuestionVote.

(** The members of the client's [Vote] enum that the router names. *)
Module Vote.
Definition UPVOTE : string := "UPVOTE".
Definition DOWNVOTE : string := "DOWNVOTE".
End Vote.

(** The stored tables, each in storage order.  Answers and comments are
    only ever counted per question, so a row of theirs is the id of the
    question it belongs to. *)
Record Db : Type := mkDb {
  users : list User.t;
  questions : list QuestionsQuestion.t;
  encounters : list QuestionsQuestionEncounter.t;
  votes : list QuestionsQuestionVote.t;
  answers : list string;
  comments : list string
}.

Definition emptyDb : Db := mkDb [] [] [] [] [] [].

Definition Resolver (A : Type) : Type := Db -> Db * Outcome A.

Definition ret {A : Type} (a : A) : Resolver A := fun db => (db, Returns a).

Definition throw {A : Type} (e : Thrown) : Resolver A := fun db => (db, Throws e).

Definition bind {A B : Type} (m : Resolver A) (k : A -> Resolver B) : Resolver B :=
  fun db =>
    match m db with
    | (db', Returns a) => k a db'
    | (db', Throws e) => (db', Throws e)
    end.

Declare Scope resolver_scope.
Delimit Scope resolver_scope with resolver.
Notation "'await' x <- m ;; k" := (bind m (fun x => k))
  (at level 10, x name, m at level 100, k at level 200) : resolver_scope.
#[local] Open Scope resolver_scope.

(** The request context: [ctx.session?.user?.id]. *)
Record Context : Type := mkContext { session_user_id : option string }.

(** What the storage layer fills in by itself when it inserts a row. *)
Record Generated : Type := mkGenerated { new_id : string; now : Z }.

(** ** The storage service behind [ctx.prisma]

    The client library and the schema it is generated from are not part of
    the router's source.  The operations the router calls are modelled
    here on tables that keep their rows in storage order.  The referential
    actions of the schema (what happens to the rows that refer to a
    deleted Question) and the columns it maintains by itself on an update
    are not described by the router or its specification and are left out:
    a delete removes the addressed row only, an update changes the columns
    it is given. *)

(** The rows a relational include or a count selects for one Question. *)
Definition ofQuestion {A : Type} (questionId : A -> string) (qid : string)
    (rows : list A) : list A :=
  filter (fun r => String.eqb (questionId r) qid) rows.

(** A Question as [findMany] and [findUnique] return it under the include
    clause of the two queries: the row, the counts of its answers and
    comments, its encounters, its user and its votes. *)
Module QuestionData.
Record t : Type := mk {
  row : QuestionsQuestion.t;
  _count_answers : Z;
  _count_comments : Z;
  encounters : list QuestionsQuestionEncounter.t;
  user : option User.t;
  votes : list QuestionsQuestionVote.t
}.
End QuestionData.

Module questionsQuestion.

(** Modelled from the spec: the include clause of the storage service
    (relational includes and counts of the rows of one Question, in
    storage order). *)
Definition include (db : Db) (q : QuestionsQuestion.t) : QuestionData.t :=
  let qid := QuestionsQuestion.id q in
  QuestionData.mk q
    (Z.of_nat (length (ofQuestion (fun a => a) qid (answers db))))
    (Z.of_nat (length (ofQuestion (fun c => c) qid (comments db))))
    (ofQuestion QuestionsQuestionEncounter.questionId qid (encounters db))
    (match QuestionsQuestion.userId q with
     | Some uid => find (fun u => String.eqb (User.id u) uid) (users db)
     | None => None
     end)
    (ofQuestion QuestionsQuestionVote.questionId qid (votes db)).

(** Modelled from the spec: the storage service's ordering clause
    [createdAt: 'desc']; rows created at the same time keep their storage
    order. *)
Fixpoint insertDesc (q : QuestionsQuestion.t) (sorted : list QuestionsQuestion.t)
    : list QuestionsQuestion.t :=
  match sorted with
  | [] => [q]
  | r :: rest =>
      if QuestionsQuestion.createdAt r <=? QuestionsQuestion.createdAt q
      then q :: sorted
      else r :: insertDesc q rest
  end.

Definition orderByCreatedAtDesc (rows : list QuestionsQuestion.t)
    : list QuestionsQuestion.t :=
  fold_right insertDesc [] rows.

(** Modelled from the spec: the storage service's filtered read.  The
    where clause is either empty ([None]) or [questionType: { in: ts }]. *)
Definition selectMany (where_questionType_in : option (list string)) (db : Db)
    : list QuestionData.t :=
  let selected :=
    match where_questionType_in with
    | None => questions db
    | Some ts =>
        filter (fun q => includes ts (Some (QuestionsQuestion.questionType q)))
               (questions db)
    end in
  map (include db) (orderByCreatedAtDesc selected).

Definition findMany (where_questionType_in : option (list string))
    : Resolver (list QuestionData.t) :=
  fun db => (db, Returns (selectMany where_questionType_in db)).

Definition lookup (id : string) (db : Db) : option QuestionsQuestion.t :=
  find (fun q => String.eqb (QuestionsQuestion.id q) id) (questions db).

(** Modelled from the spec: the storage service's read of one Question by
    its id, [null] when no row has it. *)
Definition findUnique (id : string) : Resolver (option QuestionsQuestion.t) :=
  fun db => (db, Returns (lookup id db)).

(** Modelled from the spec: the same read under the include clause. *)
Definition findUniqueInclude (id : string) : Resolver (option QuestionData.t) :=
  fun db => (db, Returns (option_map (include db) (lookup id db))).

(** The data of one encounter written together with a Question. *)
Record EncounterCreate : Type := mkEncounterCreate {
  ec_company : string;
  ec_location : string;
  ec_role : string;
  ec_seenAt : Z;
  ec_userId : option string
}.

Definition encounterRow (questionId : string) (g : Generated) (d : EncounterCreate)
    : QuestionsQuestionEncounter.t :=
  QuestionsQuestionEncounter.mk (new_id g) questionId (ec_userId d)
    (ec_company d) (Some (ec_location d)) (Some (ec_role d)) (ec_seenAt d).

Definition encounterIdTaken (id : string) (rows : list QuestionsQuestionEncounter.t)
    : bool :=
  existsb (fun e => String.eqb (QuestionsQuestionEncounter.id e) id) rows.

(** The encounter table after the nested rows are added one by one, or
    [None] when one of them would repeat an id. *)
Fixpoint addEncounters (questionId : string)
    (nested : list (Generated * EncounterCreate))
    (rows : list QuestionsQuestionEncounter.t)
    : option (list QuestionsQuestionEncounter.t) :=
  match nested with
  | [] => Some rows
  | (g, d) :: rest =>
      if encounterIdTaken (new_id g) rows then None
      else addEncounters questionId rest (rows ++ [encounterRow questionId g d])
  end.

(** Modelled from the spec: the storage service's insertion of a Question
    with a nested [encounters: { create: [...] }].  The Question and its
    nested rows are written by this one call, all or none; a generated id
    that is already in use fails the call. *)
Definition create (content questionType : string) (userId : option string)
    (nested : list (Generated * EncounterCreate)) (g : Generated)
    : Resolver QuestionsQuestion.t :=
  fun db =>
    let q := QuestionsQuestion.mk (new_id g) userId content questionType
               (now g) (now g) in
    match lookup (new_id g) db, addEncounters (new_id g) nested (encounters db) with
    | None, Some encs =>
        (mkDb (users db) (questions db ++ [q]) encs (votes db)
              (answers db) (comments db),
         Returns q)
    | _, _ => (db, Throws (PrismaError UniqueConstraintFailed))
    end.

(** Modelled from the spec: the columns of a row after the partial update
    [data: { content, questionType }]; a column whose new value is
    [undefined] keeps its value.  The specification names no other column
    that an update writes; what the storage schema does by itself to
    [updatedAt] on an update is not modelled. *)
Definition setColumns (content questionType : option string)
    (q : QuestionsQuestion.t) : QuestionsQuestion.t :=
  QuestionsQuestion.mk (QuestionsQuestion.id q)
    (QuestionsQuestion.userId q)
    (nullish content (QuestionsQuestion.content q))
    (nullish questionType (QuestionsQuestion.questionType q))
    (QuestionsQuestion.createdAt q)
    (QuestionsQuestion.updatedAt q).

(** Modelled from the spec: the storage service's partial update of the
    Question with the given id.  The call fails when no row has the id. *)
Definition update (id : string) (content questionType : option string)
    : Resolver QuestionsQuestion.t :=
  fun db =>
    match lookup id db with
    | None => (db, Throws (PrismaError RecordNotFound))
    | Some q =>
        (mkDb (users db)
              (map (fun r => if String.eqb (QuestionsQuestion.id r) id
                             then setColumns content questionType r else r)
                   (questions db))
              (encounters db) (votes db) (answers db) (comments db),
         Returns (setColumns content questionType q))
    end.

(** Modelled from the spec: the storage service's removal of the Question
    with the given id.  The call fails when no row has the id. *)
Definition delete (id : string) : Resolver QuestionsQuestion.t :=
  fun db =>
    match lookup id db with
    | None => (db, Throws (PrismaError RecordNotFound))
    | Some q =>
        (mkDb (users db)
              (filter (fun r => negb (String.eqb (QuestionsQuestion.id r) id))
                      (questions db))
              (encounters db) (votes db) (answers db) (comments db),
         Returns q)
    end.

End questionsQuestion.

Module questionsQuestionEncounter.

(** Modelled from the spec: the storage service's insertion of one
    Encounter row. *)
Definition create (questionId : string) (d : questionsQuestion.EncounterCreate)
    (g : Generated) : Resolver QuestionsQuestionEncounter.t :=
  fun db =>
    if questionsQuestion.encounterIdTaken (new_id g) (encounters db)
    then (db, Throws (PrismaError UniqueConstraintFailed))
    else
      let e := questionsQuestion.encounterRow questionId g d in
      (mkDb (users db) (questions db) (encounters db ++ [e]) (votes db)
            (answers db) (comments db),
       Returns e).

End questionsQuestionEncounter.

Module questionsQuestionVote.

Definition lookup (id : string) (db : Db) : option QuestionsQuestionVote.t :=
  find (fun v => String.eqb (QuestionsQuestionVote.id v) id) (votes db).

(** The composite key [questionId_userId] of a Vote row. *)
Definition hasKey (questionId : string) (userId : option string)
    (v : QuestionsQuestionVote.t) : bool :=
  String.eqb (QuestionsQuestionVote.questionId v) questionId
  && option_eqb (QuestionsQuestionVote.userId v) userId.

(** Modelled from the spec: the storage service's read of one Vote by its
    id, [null] when no row has it. *)
Definition findUnique (id : string) : Resolver (option QuestionsQuestionVote.t) :=
  fun db => (db, Returns (lookup id db)).

(** Modelled from the spec: the read of the Vote keyed by the composite
    uniqueness of (questionId, userId), [null] when there is none.  The
    key needs both of its parts: a read whose userId is [undefined] is
    refused. *)
Definition findUniqueByQuestionIdUserId (questionId : string)
    (userId : option string) : Resolver (option QuestionsQuestionVote.t) :=
  fun db =>
    match userId with
    | Some _ => (db, Returns (find (hasKey questionId userId) (votes db)))
    | None => (db, Throws (PrismaError MissingArgument))
    end.

(** A Vote of the same user on the same Question is stored already.  The
    constraint is on a user and a Question: a row without user takes part
    in no pair. *)
Definition pairTaken (questionId : string) (userId : option string)
    (rows : list QuestionsQuestionVote.t) : bool :=
  match userId with
  | Some _ => existsb (hasKey questionId userId) rows
  | None => false
  end.

(** Modelled from the spec: the insertion of a Vote row under the
    composite-uniqueness constraint of the persistence layer, at most one
    Vote per (questionId, userId) pair; the insertion of a second row for
    the pair of a user and a Question, like that of a row whose id is in
    use, is rejected. *)
Definition create (questionId vote : string) (userId : option string)
    (g : Generated) : Resolver QuestionsQuestionVote.t :=
  fun db =>
    if existsb (fun v => String.eqb (QuestionsQuestionVote.id v) (new_id g)) (votes db)
       || pairTaken questionId userId (votes db)
    then (db, Throws (PrismaError UniqueConstraintFailed))
    else
      let v := QuestionsQuestionVote.mk (new_id g) questionId userId vote in
      (mkDb (users db) (questions db) (encounters db) (votes db ++ [v])
            (answers db) (comments db),
       Returns v).

Definition setVote (vote : string) (v : QuestionsQuestionVote.t)
    : QuestionsQuestionVote.t :=
  QuestionsQuestionVote.mk (QuestionsQuestionVote.id v)
    (QuestionsQuestionVote.questionId v)
    (QuestionsQuestionVote.userId v) vote.

(** Modelled from the spec: the update of the [vote] column of the Vote
    with the given id.  The call fails when no row has the id. *)
Definition update (id vote : string) : Resolver QuestionsQuestionVote.t :=
  fun db =>
    match lookup id db with
    | None => (db, Throws (PrismaError RecordNotFound))
    | Some v =>
        (mkDb (users db) (questions db) (encounters db)
              (map (fun r => if String.eqb (QuestionsQuestionVote.id r) id
                             then setVote vote r else r)
                   (votes db))
              (answers db) (comments db),
         Returns (setVote vote v))
    end.

(** Modelled from the spec: the removal of the Vote with the given id.
    The call fails when no row has the id. *)
Definition delete (id : string) : Resolver QuestionsQuestionVote.t :=
  fun db =>
    match lookup id db with
    | None => (db, Throws (PrismaError RecordNotFound))
    | Some v =>
        (mkDb (users db) (questions db) (encounters db)
              (filter (fun r => negb (String.eqb (QuestionsQuestionVote.id r) id))
                      (votes db))
              (answers db) (comments db),
         Returns v)
    end.

End questionsQuestionVote.

(** ** The router *)

(** The display record of [~/types/questions], with the fields the two
    queries fill in. *)
Module Question.
Record t : Type := mk {
  company : string;
  content : string;
  id : string;
  location : string;
  numAnswers : Z;
  numComments : Z;
  numVotes : Z;
  role : string;
  seenAt : Z;
  type : string;
  updatedAt : Z;
  user : string
}.
End Question.

(** The callback of [votes.reduce] (lines 79-91 and 152-164): a [switch]
    on the vote with a case for each of the two members and no default. *)
Definition reduceVote (previousValue : Z) (currentValue : QuestionsQuestionVote.t) : Z :=
  let result := previousValue in
  if String.eqb (QuestionsQuestionVote.vote currentValue) Vote.UPVOTE then result + 1
  else if String.eqb (QuestionsQuestionVote.vote currentValue) Vote.DOWNVOTE then result - 1
  else result.

(** [data.votes.reduce(..., 0)]. *)
Definition reduceVotes (vs : list QuestionsQuestionVote.t) : Z :=
  fold_left reduceVote vs 0.

(** The object literal of lines 95-108 and 168-181, given
    [data.encounters[0]]. *)
Definition questionOf (data : QuestionData.t) (votes : Z)
    (first : QuestionsQuestionEncounter.t) : Question.t :=
  Question.mk
    (QuestionsQuestionEncounter.company first)
    (QuestionsQuestion.content (QuestionData.row data))
    (QuestionsQuestion.id (QuestionData.row data))
    (nullish (QuestionsQuestionEncounter.location first) "Unknown location")
    (QuestionData._count_answers data)
    (QuestionData._count_comments data)
    votes
    (nullish (QuestionsQuestionEncounter.role first) "Unknown role")
    (QuestionsQuestionEncounter.seenAt first)
    (QuestionsQuestion.questionType (QuestionData.row data))
    (QuestionsQuestion.updatedAt (QuestionData.row data))
    (nullish (match QuestionData.user data with
              | Some u => User.name u
              | None => None
              end) "").

(** Lines 78-109 and 151-182: the vote tally and the display record.  The
    first property of the literal reads [encounters[0].company], which
    throws when the Question has no encounter. *)
Definition shape (data : QuestionData.t) : Outcome Question.t :=
  let votes := reduceVotes (QuestionData.votes data) in
  match nth_error (QuestionData.encounters data) 0 with
  | Some first => Returns (questionOf data votes first)
  | None => Throws TypeError
  end.

(** [row?.field]: [undefined] when the lookup returned [null]. *)
Definition optionalChain {A : Type} (row : option A) (field : A -> JsValue) : JsValue :=
  match row with
  | Some r => field r
  | None => JsUndefined
  end.

Definition unauthorized {A : Type} : Resolver A := throw (TRPCError UNAUTHORIZED).

Module getQuestionsByFilter.

Record input : Type := mkInput {
  companies : list string;
  endDate : Z;
  locations : list string;
  questionTypes : list string;
  roles : list string;
  startDate : option Z
}.

(** The body of the loop over [data.encounters] (lines 59-71). *)
Definition matches (i : input) (encounter : QuestionsQuestionEncounter.t) : bool :=
  let matchCompany :=
    (length (companies i) =? 0)%nat
    || includes (companies i) (Some (QuestionsQuestionEncounter.company encounter)) in
  let matchLocation :=
    (length (locations i) =? 0)%nat
    || includes (locations i) (QuestionsQuestionEncounter.location encounter) in
  let matchRole :=
    (length (roles i) =? 0)%nat
    || includes (roles i) (QuestionsQuestionEncounter.role encounter) in
  let matchDate :=
    (match startDate i with
     | None => true
     | Some start => QuestionsQuestionEncounter.seenAt encounter >=? start
     end)
    && (QuestionsQuestionEncounter.seenAt encounter <=? endDate i) in
  matchCompany && matchLocation && matchRole && matchDate.

(** The [for] loop of the filter callback (lines 58-75): [true] at the
    first encounter that matches, [false] when the loop runs out. *)
Fixpoint anyMatches (i : input) (encs : list QuestionsQuestionEncounter.t) : bool :=
  match encs with
  | [] => false
  | encounter :: rest => if matches i encounter then true else anyMatches i rest
  end.

(** The filter callback (lines 57-76). *)
Definition keep (i : input) (data : QuestionData.t) : bool :=
  anyMatches i (QuestionData.encounters data).

(** The where clause of lines 46-54. *)
Definition whereClause (i : input) : option (list string) :=
  if (0 <? length (questionTypes i))%nat then Some (questionTypes i) else None.

Definition resolve (ctx : Context) (i : input) : Resolver (list Question.t) :=
  await questionsData <- questionsQuestion.findMany (whereClause i) ;;
  fun db => (db, mapO shape (filter (keep i) questionsData)).

End getQuestionsByFilter.

Module getQuestionById.

Record input : Type := mkInput { id : string }.

Definition resolve (ctx : Context) (i : input) : Resolver Question.t :=
  await questionData <- questionsQuestion.findUniqueInclude (id i) ;;
  match questionData with
  | None => throw (TRPCError NOT_FOUND)
  | Some data => fun db => (db, shape data)
  end.

End getQuestionById.

Module create.

Record input : Type := mkInput {
  company : string;
  content : string;
  location : string;
  questionType : string;
  role : string;
  seenAt : Z
}.

(** The values the storage layer generates for the three rows the call
    inserts: the Question, its nested encounter and the encounter of the
    second write. *)
Record generated : Type := mkGenerated3 {
  forQuestion : Generated;
  forNestedEncounter : Generated;
  forEncounter : Generated
}.

Definition encounterData (userId : option string) (i : input)
    : questionsQuestion.EncounterCreate :=
  questionsQuestion.mkEncounterCreate (company i) (location i) (role i) (seenAt i) userId.

Definition resolve (ctx : Context) (i : input) (g : generated)
    : Resolver QuestionsQuestion.t :=
  let userId := session_user_id ctx in
  await question <-
    questionsQuestion.create (content i) (questionType i) userId
      [(forNestedEncounter g, encounterData userId i)] (forQuestion g) ;;
  await _encounter <-
    questionsQuestionEncounter.create (QuestionsQuestion.id question)
      (encounterData userId i) (forEncounter g) ;;
  ret question.

End create.

Module update.

Record input : Type := mkInput {
  content : option string;
  id : string;
  questionType : option string
}.

Definition resolve (ctx : Context) (i : input) : Resolver QuestionsQuestion.t :=
  let userId := session_user_id ctx in
  await questionToUpdate <- questionsQuestion.findUnique (id i) ;;
  if strict_differs
       (optionalChain questionToUpdate (fun q => JsString (QuestionsQuestion.id q)))
       (orUndefined userId)
  then unauthorized
  else questionsQuestion.update (id i) (content i) (questionType i).

End update.

Module delete.

Record input : Type := mkInput { id : string }.

Definition resolve (ctx : Context) (i : input) : Resolver QuestionsQuestion.t :=
  let userId := session_user_id ctx in
  await questionToDelete <- questionsQuestion.findUnique (id i) ;;
  if strict_differs
       (optionalChain questionToDelete (fun q => JsString (QuestionsQuestion.id q)))
       (orUndefined userId)
  then unauthorized
  else questionsQuestion.delete (id i).

End delete.

Module getVote.

Record input : Type := mkInput { questionId : string }.

Definition resolve (ctx : Context) (i : input)
    : Resolver (option QuestionsQuestionVote.t) :=
  let userId := session_user_id ctx in
  questionsQuestionVote.findUniqueByQuestionIdUserId (questionId i) userId.

End getVote.

Module createVote.

Record input : Type := mkInput { questionId : string; vote : string }.

Definition resolve (ctx : Context) (i : input) (g : Generated)
    : Resolver QuestionsQuestionVote.t :=
  let userId := session_user_id ctx in
  questionsQuestionVote.create (questionId i) (vote i) userId g.

End createVote.

Module updateVote.

Record input : Type := mkInput { id : string; vote : string }.

Definition resolve (ctx : Context) (i : input) : Resolver QuestionsQuestionVote.t :=
  let userId := session_user_id ctx in
  await voteToUpdate <- questionsQuestionVote.findUnique (id i) ;;
  if strict_differs
       (optionalChain voteToUpdate (fun v => orNull (QuestionsQuestionVote.userId v)))
       (orUndefined userId)
  then unauthorized
  else questionsQuestionVote.update (id i) (vote i).

End updateVote.

Module deleteVote.

Record input : Type := mkInput { id : string }.

Definition resolve (ctx : Context) (i : input) : Resolver QuestionsQuestionVote.t :=
  let userId := session_user_id ctx in
  await voteToDelete <- questionsQuestionVote.findUnique (id i) ;;
  if strict_differs
       (optionalChain voteToDelete (fun v => orNull (QuestionsQuestionVote.userId v)))
       (orUndefined userId)
  then unauthorized
  else questionsQuestionVote.delete (id i).

End deleteVote.

(** ** What the specification says, in its own words *)

(** A list filter: an empty list matches every encounter, otherwise the
    encounter's value has to be a member of the list. *)
Definition listFilterMatches (wanted : list string) (value : option string) : Prop :=
  wanted = [] \/ exists s, value = Some s /\ In s wanted.

(** [seenAt] within [[startDate, endDate]], no lower bound when the start
    date is left out. *)
Definition withinDates (startDate : option Z) (endDate seenAt : Z) : Prop :=
  (forall start, startDate = Some start -> start <= seenAt) /\ seenAt <= endDate.

(** The four conditions on one encounter, all at once. *)
Definition encounterSatisfies (i : getQuestionsByFilter.input)
    (e : QuestionsQuestionEncounter.t) : Prop :=
  listFilterMatches (getQuestionsByFilter.companies i)
    (Some (QuestionsQuestionEncounter.company e))
  /\ listFilterMatches (getQuestionsByFilter.locations i)
       (QuestionsQuestionEncounter.location e)
  /\ listFilterMatches (getQuestionsByFilter.roles i)
       (QuestionsQuestionEncounter.role e)
  /\ withinDates (getQuestionsByFilter.startDate i) (getQuestionsByFilter.endDate i)
       (QuestionsQuestionEncounter.seenAt e).

(** The Questions the list query fetches, and those it retains. *)
Definition fetched (i : getQuestionsByFilter.input) (db : Db) : list QuestionData.t :=
  questionsQuestion.selectMany (getQuestionsByFilter.whereClause i) db.

Definition retained (i : getQuestionsByFilter.input) (db : Db) : list QuestionData.t :=
  filter (getQuestionsByFilter.keep i) (fetched i db).

(** The number of votes of one kind among some Vote rows. *)
Definition countVotes (kind : string) (vs : list QuestionsQuestionVote.t) : Z :=
  Z.of_nat (length (filter (fun v => String.eqb (QuestionsQuestionVote.vote v) kind) vs)).

(** What one Vote row adds to the score. *)
Definition contribution (v : QuestionsQuestionVote.t) : Z :=
  if String.eqb (QuestionsQuestionVote.vote v) Vote.UPVOTE then 1
  else if String.eqb (QuestionsQuestionVote.vote v) Vote.DOWNVOTE then -1
  else 0.

(** The Vote rows stored for one (questionId, userId) pair. *)
Definition votesOfPair (questionId : string) (userId : option string) (db : Db)
    : list QuestionsQuestionVote.t :=
  filter (questionsQuestionVote.hasKey questionId userId) (votes db).

(** At most one Vote per (questionId, userId) pair. *)
Definition oneVotePerPair (db : Db) : Prop :=
  forall questionId userId, (length (votesOfPair questionId userId db) <= 1)%nat.

(** At most one Vote per Question and user. *)
Definition oneVotePerUser (db : Db) : Prop :=
  forall questionId user,
    (length (votesOfPair questionId (Some user) db) <= 1)%nat.

(** No stored Question has the id. *)
Definition unknownQuestion (id : string) (db : Db) : Prop :=
  forall q, In q (questions db) -> QuestionsQuestion.id q <> id.

(** No stored Vote has the id. *)
Definition unknownVote (id : string) (db : Db) : Prop :=
  forall v, In v (votes db) -> QuestionsQuestionVote.id v <> id.

(** Upvotes minus downvotes. *)
Definition score (vs : list QuestionsQuestionVote.t) : Z :=
  countVotes Vote.UPVOTE vs - countVotes Vote.DOWNVOTE vs.

(** The display fields that come from the first encounter and from the
    user relation, as the specification describes them. *)
Definition showsFirstEncounter (data : QuestionData.t) (q : Question.t) : Prop :=
  exists first rest,
    QuestionData.encounters data = first :: rest
    /\ Question.company q = QuestionsQuestionEncounter.company first
    /\ Question.seenAt q = QuestionsQuestionEncounter.seenAt first
    /\ (forall l, QuestionsQuestionEncounter.location first = Some l ->
                  Question.location q = l)
    /\ (QuestionsQuestionEncounter.location first = None ->
        Question.location q = "Unknown location")
    /\ (forall r, QuestionsQuestionEncounter.role first = Some r ->
                  Question.role q = r)
    /\ (QuestionsQuestionEncounter.role first = None ->
        Question.role q = "Unknown role")
    /\ (QuestionData.user data = None -> Question.user q = "").

(** The caller is the user of a row: both ids are there and are the same
    string.  A row without user ([null]) and a call without session user
    ([undefined]) do not count as the same user. *)
Definition sameUser (rowUserId callerUserId : option string) : Prop :=
  exists u, rowUserId = Some u /\ callerUserId = Some u.

(** The tables with the rows of one table replaced. *)
Definition withQuestions (qs : list QuestionsQuestion.t) (db : Db) : Db :=
  mkDb (users db) qs (encounters db) (votes db) (answers db) (comments db).

Definition withVotes (vs : list QuestionsQuestionVote.t) (db : Db) : Db :=
  mkDb (users db) (questions db) (encounters db) vs (answers db) (comments db).

(** A Question row with new content and type where they are given. *)
Definition partiallyUpdated (content questionType : option string)
    (q : QuestionsQuestion.t) : QuestionsQuestion.t :=
  QuestionsQuestion.mk (QuestionsQuestion.id q) (QuestionsQuestion.userId q)
    (match content with Some c => c | None => QuestionsQuestion.content q end)
    (match questionType with Some t => t | None => QuestionsQuestion.questionType q end)
    (QuestionsQuestion.createdAt q) (QuestionsQuestion.updatedAt q).

(** A Vote row with a new vote and nothing else changed. *)
Definition revoted (vote : string) (v : QuestionsQuestionVote.t)
    : QuestionsQuestionVote.t :=
  QuestionsQuestionVote.mk (QuestionsQuestionVote.id v)
    (QuestionsQuestionVote.questionId v) (QuestionsQuestionVote.userId v) vote.

(** The rows of a table with those of one id changed, or removed. *)
Definition changeWhere {A : Type} (id : A -> string) (target : string)
    (change : A -> A) (rows : list A) : list A :=
  map (fun r => if String.eqb (id r) target then change r else r) rows.

Definition removeWhere {A : Type} (id : A -> string) (target : string)
    (rows : list A) : list A :=
  filter (fun r => negb (String.eqb (id r) target)) rows.

(** The Encounter row that [create] writes for the Question [qid] with
    the generated values [g]: the company, location, role and seenAt of
    the input, and the caller as user. *)
Definition matchingEncounter (ctx : Context) (i : create.input) (qid : string)
    (g : Generated) : QuestionsQuestionEncounter.t :=
  QuestionsQuestionEncounter.mk (new_id g) qid (session_user_id ctx)
    (create.company i) (Some (create.location i)) (Some (create.role i))
    (create.seenAt i).

(** The Question row that [create] writes. *)
Definition createdQuestion (ctx : Context) (i : create.input) (g : Generated)
    : QuestionsQuestion.t :=
  QuestionsQuestion.mk (new_id g) (session_user_id ctx) (create.content i)
    (create.questionType i) (now g) (now g).

(** ** Calls of the router, one after the other *)

Inductive Call : Type :=
| CallGetQuestionsByFilter (ctx : Context) (i : getQuestionsByFilter.input)
| CallGetQuestionById (ctx : Context) (i : getQuestionById.input)
| CallCreate (ctx : Context) (i : create.input) (g : create.generated)
| CallUpdate (ctx : Context) (i : update.input)
| CallDelete (ctx : Context) (i : delete.input)
| CallGetVote (ctx : Context) (i : getVote.input)
| CallCreateVote (ctx : Context) (i : createVote.input) (g : Generated)
| CallUpdateVote (ctx : Context) (i : updateVote.input)
| CallDeleteVote (ctx : Context) (i : deleteVote.input).

(** The tables a call leaves behind, whether it returned or threw. *)
Definition after (c : Call) (db : Db) : Db :=
  match c with
  | CallGetQuestionsByFilter ctx i => fst (getQuestionsByFilter.resolve ctx i db)
  | CallGetQuestionById ctx i => fst (getQuestionById.resolve ctx i db)
  | CallCreate ctx i g => fst (create.resolve ctx i g db)
  | CallUpdate ctx i => fst (update.resolve ctx i db)
  | CallDelete ctx i => fst (delete.resolve ctx i db)
  | CallGetVote ctx i => fst (getVote.resolve ctx i db)
  | CallCreateVote ctx i g => fst (createVote.resolve ctx i g db)
  | CallUpdateVote ctx i => fst (updateVote.resolve ctx i db)
  | CallDeleteVote ctx i => fst (deleteVote.resolve ctx i db)
  end.

(** The tables reachable from [db0] by calls of the router. *)
Inductive ReachableFrom (db0 : Db) : Db -> Prop :=
| reach_start : ReachableFrom db0 db0
| reach_call (c : Call) (db : Db) :
    ReachableFrom db0 db -> ReachableFrom db0 (after c db).

(** ** Further notions for the properties of the router *)

(** The type filter of the where clause: no list, or a list the type is
    in. *)
Definition typeFilterMatches (i : getQuestionsByFilter.input)
    (row : QuestionsQuestion.t) : Prop :=
  getQuestionsByFilter.questionTypes i = []
  \/ In (QuestionsQuestion.questionType row) (getQuestionsByFilter.questionTypes i).

(** A list filter that lets through at least what another one does. *)
Definition listFilterWidens (wide narrow : list string) : Prop :=
  wide = [] \/ (narrow <> [] /\ incl narrow wide).

(** An input with the same type filter and list filters and a date range
    that are at least as permissive. *)
Definition widens (wide narrow : getQuestionsByFilter.input) : Prop :=
  getQuestionsByFilter.questionTypes wide = getQuestionsByFilter.questionTypes narrow
  /\ listFilterWidens (getQuestionsByFilter.companies wide)
       (getQuestionsByFilter.companies narrow)
  /\ listFilterWidens (getQuestionsByFilter.locations wide)
       (getQuestionsByFilter.locations narrow)
  /\ listFilterWidens (getQuestionsByFilter.roles wide)
       (getQuestionsByFilter.roles narrow)
  /\ getQuestionsByFilter.endDate narrow <= getQuestionsByFilter.endDate wide
  /\ (getQuestionsByFilter.startDate wide = None
      \/ exists s s', getQuestionsByFilter.startDate narrow = Some s
                      /\ getQuestionsByFilter.startDate wide = Some s'
                      /\ s' <= s).

(** Questions in the order of their creation, the newest first. *)
Definition newestFirst (l : list QuestionData.t) : Prop :=
  StronglySorted
    (fun earlier later =>
       QuestionsQuestion.createdAt (QuestionData.row later)
       <= QuestionsQuestion.createdAt (QuestionData.row earlier)) l.

(** A display record with another vote score. *)
Definition setNumVotes (n : Z) (q : Question.t) : Question.t :=
  Question.mk (Question.company q) (Question.content q) (Question.id q)
    (Question.location q) (Question.numAnswers q) (Question.numComments q) n
    (Question.role q) (Question.seenAt q) (Question.type q) (Question.updatedAt q)
    (Question.user q).

(** The fields of a display record that an update of the Question's
    content and type leaves alone: all but content, type and updatedAt. *)
Definition besidesContentTypeAndUpdatedAt (q : Question.t)
    : string * string * string * Z * Z * Z * string * Z * string :=
  (Question.company q, Question.id q, Question.location q, Question.numAnswers q,
   Question.numComments q, Question.numVotes q, Question.role q, Question.seenAt q,
   Question.user q).

(** The columns of a Question row but for [updatedAt]. *)
Definition besidesUpdatedAt (q : QuestionsQuestion.t)
    : string * option string * string * string * Z :=
  (QuestionsQuestion.id q, QuestionsQuestion.userId q, QuestionsQuestion.content q,
   QuestionsQuestion.questionType q, QuestionsQuestion.createdAt q).

(** ** The question draft dialog

    [ContributeQuestionDialog] keeps one piece of state,
    [showDiscardDialog], and reacts to five events of its children by
    setting that state and calling the [onSubmit] and [onCancel] of its
    props.  What it renders is not modelled. *)

Module ContributeQuestionDialog.

Section Dialog.

Variable Data : Type.

(** The events the component has a handler for. *)
Inductive Event : Type :=
| DialogClose                  (* [onClose] of the dialog *)
| FormDiscard                  (* [onDiscard] of the form *)
| FormSubmit (data : Data)     (* [onSubmit] of the form *)
| DiscardCancel                (* [onCancel] of the discard dialog *)
| DiscardConfirm.              (* [onDiscard] of the discard dialog *)

(** The calls the component makes on its props. *)
Inductive Call : Type :=
| onSubmit (data : Data)
| onCancel.

(** [useState(false)]. *)
Definition initial : bool := false.

(** [handleDraftDiscard]. *)
Definition handleDraftDiscard (showDiscardDialog : bool) : bool * list Call :=
  (false, [onCancel]).

(** [handleDiscardCancel]. *)
Definition handleDiscardCancel (showDiscardDialog : bool) : bool * list Call :=
  (false, []).

(** The handler of each event: the next [showDiscardDialog] and the calls
    on the props, in order. *)
Definition handle (e : Event) (showDiscardDialog : bool) : bool * list Call :=
  match e with
  | DialogClose => (showDiscardDialog, [onCancel])
  | FormDiscard => (true, [])
  | FormSubmit data => (showDiscardDialog, [onSubmit data; onCancel])
  | DiscardCancel => handleDiscardCancel showDiscardDialog
  | DiscardConfirm => handleDraftDiscard showDiscardDialog
  end.

(** The state and the calls made after a sequence of events. *)
Fixpoint run (events : list Event) (showDiscardDialog : bool) : bool * list Call :=
  match events with
  | [] => (showDiscardDialog, [])
  | e :: rest =>
      let (s, calls) := handle e showDiscardDialog in
      let (s', calls') := run rest s in
      (s', (calls ++ calls')%list)
  end.

(** The drafts submitted by the form, in order. *)
Fixpoint submitted (events : list Event) : list Data :=
  match events with
  | [] => []
  | FormSubmit data :: rest => data :: submitted rest
  | _ :: rest => submitted rest
  end.

(** The drafts handed to [onSubmit], in order. *)
Fixpoint handedOn (calls : list Call) : list Data :=
  match calls with
  | [] => []
  | onSubmit data :: rest => data :: handedOn rest
  | onCancel :: rest => handedOn rest
  end.

(** Every [onSubmit] is followed at once by an [onCancel]. *)
Fixpoint submitsAreCancelled (calls : list Call) : Prop :=
  match calls with
  | [] => True
  | onSubmit _ :: rest =>
      match rest with
      | onCancel :: _ => submitsAreCancelled rest
      | _ => False
      end
  | onCancel :: rest => submitsAreCancelled rest
  end.

(** What the last event that touches [showDiscardDialog] leaves it at,
    [None] when no event touches it. *)
Fixpoint lastDiscardState (events : list Event) : option bool :=
  match events with
  | [] => None
  | e :: rest =>
      match lastDiscardState rest with
      | Some b => Some b
      | None =>
          match e with
          | FormDiscard => Some true
          | DiscardCancel | DiscardConfirm => Some false
          | DialogClose | FormSubmit _ => None
          end
      end
  end.

End Dialog.

Arguments DialogClose {Data}.
Arguments FormDiscard {Data}.
Arguments FormSubmit {Data} data.
Arguments DiscardCancel {Data}.
Arguments DiscardConfirm {Data}.
Arguments onSubmit {Data} data.
Arguments onCancel {Data}.
Arguments handle {Data} e showDiscardDialog.
Arguments run {Data} events showDiscardDialog.
Arguments submitted {Data} events.
Arguments handedOn {Data} calls.
Arguments submitsAreCancelled {Data} calls.
Arguments lastDiscardState {Data} events.

End ContributeQuestionDialog.

(** ** Sample data *)

Module Sample.

Definition alice : User.t := User.mk "u1" (Some "Alice").

(** A Question with two encounters and four votes. *)
Definition twoSum : QuestionsQuestion.t :=
  QuestionsQuestion.mk "q1" (Some "u1") "Two sum" "CODING" 100 100.

(** A Question without owner and without encounters. *)
Definition cache : QuestionsQuestion.t :=
  QuestionsQuestion.mk "q2" None "Design a cache" "SYSTEM_DESIGN" 200 200.

Definition seenAtA : QuestionsQuestionEncounter.t :=
  QuestionsQuestionEncounter.mk "e1" "q1" (Some "u1") "A" None None 50.

Definition seenAtB : QuestionsQuestionEncounter.t :=
  QuestionsQuestionEncounter.mk "e2" "q1" (Some "u2") "B" (Some "Singapore")
    (Some "Engineer") 70.

Definition db : Db :=
  mkDb [alice]
       [twoSum; cache]
       [seenAtA; seenAtB]
       [QuestionsQuestionVote.mk "v1" "q1" (Some "u1") Vote.UPVOTE;
        QuestionsQuestionVote.mk "v2" "q1" (Some "u2") Vote.UPVOTE;
        QuestionsQuestionVote.mk "v3" "q1" (Some "u3") Vote.DOWNVOTE;
        QuestionsQuestionVote.mk "v4" "q1" None Vote.UPVOTE]
       ["q1"; "q1"]
       ["q1"].

(** What [getQuestionById] shows for the first Question. *)
Definition twoSumShown : Question.t :=
  Question.mk "A" "Two sum" "q1" "Unknown location" 2 1 2 "Unknown role" 50
    "CODING" 100 "Alice".

Definition anonymous : Context := mkContext None.
Definition asUser (id : string) : Context := mkContext (Some id).

End Sample.

(** ** Helper lemmas *)

Section Helpers.

Lemma includes_In (xs : list string) (x : option string) :
  includes xs x = true <-> exists s, x = Some s /\ In s xs.
Proof.
  destruct x as [s|]; simpl.
  - rewrite existsb_exists. split.
    + intros [t [Hin Heq]]. apply String.eqb_eq in Heq. subst t. eauto.
    + intros [t [Heq Hin]]. injection Heq as Heq. subst t. exists s.
      split; [assumption | apply String.eqb_refl].
  - split; [discriminate | intros [s [H _]]; discriminate].
Qed.

Lemma length_zero_nil {A : Type} (xs : list A) :
  (length xs =? 0)%nat = true <-> xs = [].
Proof.
  destruct xs; simpl; split; try reflexivity; discriminate.
Qed.

Lemma listFilter_decides (wanted : list string) (value : option string) :
  (length wanted =? 0)%nat || includes wanted value = true
  <-> listFilterMatches wanted value.
Proof.
  unfold listFilterMatches.
  rewrite orb_true_iff, length_zero_nil, includes_In. reflexivity.
Qed.

Lemma dates_decide (startDate : option Z) (endDate seenAt : Z) :
  (match startDate with None => true | Some start => seenAt >=? start end)
  && (seenAt <=? endDate) = true
  <-> withinDates startDate endDate seenAt.
Proof.
  unfold withinDates. rewrite andb_true_iff, Z.leb_le.
  destruct startDate as [start|].
  - rewrite Z.geb_le. split.
    + intros [H1 H2]. split; [| assumption].
      intros s Hs. injection Hs as <-. assumption.
    + intros [H1 H2]. split; [apply H1; reflexivity | assumption].
  - split.
    + intros [_ H2]. split; [discriminate | assumption].
    + intros [_ H2]. split; [reflexivity | assumption].
Qed.

Lemma matches_iff (i : getQuestionsByFilter.input) (e : QuestionsQuestionEncounter.t) :
  getQuestionsByFilter.matches i e = true <-> encounterSatisfies i e.
Proof.
  unfold getQuestionsByFilter.matches, encounterSatisfies. cbv zeta.
  rewrite andb_true_iff, dates_decide.
  rewrite !andb_true_iff, !listFilter_decides. tauto.
Qed.

Lemma anyMatches_iff (i : getQuestionsByFilter.input)
    (encs : list QuestionsQuestionEncounter.t) :
  getQuestionsByFilter.anyMatches i encs = true
  <-> exists e, In e encs /\ encounterSatisfies i e.
Proof.
  induction encs as [|e rest IH]; simpl.
  - split; [discriminate | intros [e [[] _]]].
  - destruct (getQuestionsByFilter.matches i e) eqn:He.
    + split; [| reflexivity]. intros _. exists e.
      split; [left; reflexivity | apply matches_iff; assumption].
    + rewrite IH. split.
      * intros [e' [Hin Hs]]. exists e'. split; [right; assumption | assumption].
      * intros [e' [[-> | Hin] Hs]].
        -- apply matches_iff in Hs. congruence.
        -- exists e'. split; assumption.
Qed.

Lemma anyMatches_nonempty (i : getQuestionsByFilter.input)
    (encs : list QuestionsQuestionEncounter.t) :
  getQuestionsByFilter.anyMatches i encs = true -> encs <> [].
Proof.
  destruct encs; [discriminate | discriminate].
Qed.

Lemma mapO_Forall2 {A B : Type} (f : A -> Outcome B) (xs : list A) (ys : list B) :
  mapO f xs = Returns ys <-> Forall2 (fun x y => f x = Returns y) xs ys.
Proof.
  revert ys. induction xs as [|x rest IH]; intros ys; simpl.
  - split.
    + intros H. injection H as <-. constructor.
    + intros H. inversion H. reflexivity.
  - destruct (f x) as [y|e] eqn:Hx; simpl.
    + destruct (mapO f rest) as [ys'|e] eqn:Hrest; simpl.
      * split.
        -- intros H. injection H as <-. constructor; [assumption |].
           apply IH. reflexivity.
        -- intros H. inversion H as [|x0 y0 l l' Hy Hl]; subst.
           apply IH in Hl. congruence.
      * split; [discriminate |].
        intros H. inversion H as [|x0 y0 l l' Hy Hl]; subst.
        apply IH in Hl. discriminate.
    + split; [discriminate |].
      intros H. inversion H; subst. congruence.
Qed.

Lemma mapO_total {A B : Type} (f : A -> Outcome B) (xs : list A) :
  Forall (fun x => exists y, f x = Returns y) xs ->
  exists ys, mapO f xs = Returns ys.
Proof.
  induction 1 as [|x rest [y Hy] _ [ys Hys]]; simpl.
  - exists []. reflexivity.
  - exists (y :: ys). rewrite Hy. simpl. rewrite Hys. reflexivity.
Qed.

Lemma shape_nonempty (data : QuestionData.t) :
  QuestionData.encounters data <> [] ->
  exists first rest,
    QuestionData.encounters data = first :: rest
    /\ shape data
       = Returns (questionOf data (reduceVotes (QuestionData.votes data)) first).
Proof.
  unfold shape. destruct (QuestionData.encounters data) as [|first rest].
  - intros H. contradiction H. reflexivity.
  - intros _. exists first, rest. split; reflexivity.
Qed.

Lemma shape_Returns (data : QuestionData.t) (q : Question.t) :
  shape data = Returns q ->
  exists first rest,
    QuestionData.encounters data = first :: rest
    /\ q = questionOf data (reduceVotes (QuestionData.votes data)) first.
Proof.
  unfold shape. destruct (QuestionData.encounters data) as [|first rest]; simpl.
  - discriminate.
  - intros H. injection H as <-. exists first, rest. split; reflexivity.
Qed.

Lemma shape_empty (data : QuestionData.t) :
  QuestionData.encounters data = [] -> shape data = Throws TypeError.
Proof.
  unfold shape. intros ->. reflexivity.
Qed.

Lemma getQuestionsByFilter_unfold (ctx : Context) (i : getQuestionsByFilter.input)
    (db : Db) :
  getQuestionsByFilter.resolve ctx i db = (db, mapO shape (retained i db)).
Proof. reflexivity. Qed.

Lemma retained_shapes (i : getQuestionsByFilter.input) (db : Db) :
  exists result, mapO shape (retained i db) = Returns result.
Proof.
  apply mapO_total. apply Forall_forall. intros data Hin.
  apply filter_In in Hin. destruct Hin as [_ Hkeep].
  apply anyMatches_nonempty in Hkeep.
  destruct (shape_nonempty data Hkeep) as [first [rest [_ Hs]]]. eauto.
Qed.

Lemma getQuestionsByFilter_Returns (ctx : Context) (i : getQuestionsByFilter.input)
    (db db' : Db) (result : list Question.t) :
  getQuestionsByFilter.resolve ctx i db = (db', Returns result) ->
  db' = db /\ Forall2 (fun data q => shape data = Returns q) (retained i db) result.
Proof.
  rewrite getQuestionsByFilter_unfold. intros H. injection H as <- H.
  split; [reflexivity | apply mapO_Forall2; assumption].
Qed.

End Helpers.

(** ** The filter of the list query *)

(** C1: [getQuestionsByFilter] returns the shaped records of the retained
    Questions, in order, and a fetched Question is retained exactly when
    at least one of its encounters satisfies the companies, locations and
    roles filters and the date range all at once. *)
Theorem getQuestionsByFilter_retains_iff_some_encounter_satisfies
    (ctx : Context) (i : getQuestionsByFilter.input) (db : Db) :
  (exists result,
      getQuestionsByFilter.resolve ctx i db = (db, Returns result)
      /\ Forall2 (fun data q => shape data = Returns q) (retained i db) result)
  /\ (forall data,
        In data (retained i db)
        <-> In data (fetched i db)
            /\ exists e, In e (QuestionData.encounters data)
                         /\ encounterSatisfies i e).
Proof.
  split.
  - destruct (retained_shapes i db) as [result Hres].
    exists result. rewrite getQuestionsByFilter_unfold, Hres.
    split; [reflexivity | apply mapO_Forall2; assumption].
  - intros data. unfold retained. rewrite filter_In.
    unfold getQuestionsByFilter.keep. rewrite anyMatches_iff. reflexivity.
Qed.

Lemma sample_question_is_retained :
  In (questionsQuestion.include Sample.db Sample.twoSum)
     (retained (getQuestionsByFilter.mkInput ["B"] 100 [] [] [] None) Sample.db).
Proof.
  apply (proj2 (getQuestionsByFilter_retains_iff_some_encounter_satisfies
                  Sample.anonymous
                  (getQuestionsByFilter.mkInput ["B"] 100 [] [] [] None) Sample.db)).
  split.
  - right. left. reflexivity.
  - exists Sample.seenAtB. split; [right; left; reflexivity |].
    unfold encounterSatisfies, listFilterMatches, withinDates. cbn.
    repeat split; try (left; reflexivity); try discriminate.
    right. exists "B". split; [reflexivity | left; reflexivity].
Defined.

(** The example of the specification: with encounters at companies A and
    B and the filter [companies = ["B"]] alone, the Question is kept
    exactly when the second encounter's date is in range, whatever the
    first encounter is. *)
Lemma keep_by_second_encounter (row : QuestionsQuestion.t) (na nc : Z)
    (user : option User.t) (vs : list QuestionsQuestionVote.t)
    (eA eB : QuestionsQuestionEncounter.t) (types : list string)
    (startDate : option Z) (endDate : Z) :
  QuestionsQuestionEncounter.company eA = "A" ->
  QuestionsQuestionEncounter.company eB = "B" ->
  getQuestionsByFilter.keep
    (getQuestionsByFilter.mkInput ["B"] endDate [] types [] startDate)
    (QuestionData.mk row na nc [eA; eB] user vs) = true
  <-> withinDates startDate endDate (QuestionsQuestionEncounter.seenAt eB).
Proof.
  intros HA HB. unfold getQuestionsByFilter.keep. rewrite anyMatches_iff. simpl.
  split.
  - intros [e [[<- | [<- | []]] [Hc [_ [_ Hd]]]]]; simpl in *.
    + rewrite HA in Hc. destruct Hc as [Hc | [s [Hs [Hin | []]]]];
        [discriminate | ]. injection Hs as <-. discriminate.
    + assumption.
  - intros Hd. exists eB. split; [right; left; reflexivity |].
    unfold encounterSatisfies; simpl. rewrite HB.
    repeat split; try (left; reflexivity); try apply Hd.
    right. exists "B". split; [reflexivity | left; reflexivity].
Qed.

(** ** The vote score *)

Section VoteScore.

Lemma reduceVote_contribution (z : Z) (v : QuestionsQuestionVote.t) :
  reduceVote z v = z + contribution v.
Proof.
  unfold reduceVote, contribution.
  destruct (String.eqb (QuestionsQuestionVote.vote v) Vote.UPVOTE);
    [lia |].
  destruct (String.eqb (QuestionsQuestionVote.vote v) Vote.DOWNVOTE); lia.
Qed.

Lemma fold_reduceVote (vs : list QuestionsQuestionVote.t) (z : Z) :
  fold_left reduceVote vs z = z + fold_right (fun v acc => contribution v + acc) 0 vs.
Proof.
  revert z. induction vs as [|v rest IH]; intros z; simpl.
  - lia.
  - rewrite IH, reduceVote_contribution. lia.
Qed.

Lemma countVotes_cons (kind : string) (v : QuestionsQuestionVote.t)
    (rest : list QuestionsQuestionVote.t) :
  countVotes kind (v :: rest)
  = (if String.eqb (QuestionsQuestionVote.vote v) kind then 1 else 0)
    + countVotes kind rest.
Proof.
  unfold countVotes. cbn [filter].
  destruct (String.eqb (QuestionsQuestionVote.vote v) kind).
  - cbn [length]. rewrite Nat2Z.inj_succ. lia.
  - lia.
Qed.

Lemma contributions_score (vs : list QuestionsQuestionVote.t) :
  fold_right (fun v acc => contribution v + acc) 0 vs = score vs.
Proof.
  unfold score.
  induction vs as [|v rest IH]; [reflexivity |].
  cbn [fold_right]. rewrite IH, !countVotes_cons. unfold contribution.
  destruct (String.eqb (QuestionsQuestionVote.vote v) Vote.UPVOTE) eqn:Hup.
  - apply String.eqb_eq in Hup. rewrite Hup.
    replace (String.eqb Vote.UPVOTE Vote.DOWNVOTE) with false by reflexivity.
    lia.
  - destruct (String.eqb (QuestionsQuestionVote.vote v) Vote.DOWNVOTE); lia.
Qed.

Lemma reduceVotes_score (vs : list QuestionsQuestionVote.t) :
  reduceVotes vs = score vs.
Proof.
  unfold reduceVotes. rewrite fold_reduceVote, contributions_score. lia.
Qed.

Lemma shape_numVotes (data : QuestionData.t) (q : Question.t) :
  shape data = Returns q -> Question.numVotes q = score (QuestionData.votes data).
Proof.
  intros H. apply shape_Returns in H. destruct H as [first [rest [_ ->]]].
  simpl. apply reduceVotes_score.
Qed.

End VoteScore.

Section ById.

Lemma lookup_None_unknown (id : string) (db : Db) :
  questionsQuestion.lookup id db = None <-> unknownQuestion id db.
Proof.
  unfold questionsQuestion.lookup, unknownQuestion. split.
  - intros H q Hin Heq.
    pose proof (find_none _ _ H q Hin) as Hq. simpl in Hq.
    rewrite Heq, String.eqb_refl in Hq. discriminate.
  - intros H.
    destruct (find _ (questions db)) as [q|] eqn:Hf; [| reflexivity].
    apply find_some in Hf. destruct Hf as [Hin Heq].
    apply String.eqb_eq in Heq. exfalso. exact (H q Hin Heq).
Qed.

Lemma lookup_Some_id (id : string) (db : Db) (q : QuestionsQuestion.t) :
  questionsQuestion.lookup id db = Some q ->
  In q (questions db) /\ QuestionsQuestion.id q = id.
Proof.
  unfold questionsQuestion.lookup. intros H. apply find_some in H.
  destruct H as [Hin Heq]. apply String.eqb_eq in Heq. split; assumption.
Qed.

Lemma getQuestionById_unfold (ctx : Context) (i : getQuestionById.input) (db : Db) :
  getQuestionById.resolve ctx i db
  = match questionsQuestion.lookup (getQuestionById.id i) db with
    | None => (db, Throws (TRPCError NOT_FOUND))
    | Some row => (db, shape (questionsQuestion.include db row))
    end.
Proof.
  unfold getQuestionById.resolve, bind, questionsQuestion.findUniqueInclude.
  destruct (questionsQuestion.lookup (getQuestionById.id i) db); reflexivity.
Qed.

Lemma getQuestionById_Returns (ctx : Context) (i : getQuestionById.input)
    (db db' : Db) (q : Question.t) :
  getQuestionById.resolve ctx i db = (db', Returns q) ->
  db' = db
  /\ exists row,
       questionsQuestion.lookup (getQuestionById.id i) db = Some row
       /\ shape (questionsQuestion.include db row) = Returns q.
Proof.
  rewrite getQuestionById_unfold.
  destruct (questionsQuestion.lookup (getQuestionById.id i) db) as [row|].
  - intros H. injection H as <- H. split; [reflexivity |]. eauto.
  - discriminate.
Qed.

End ById.

(** C3: the [numVotes] of a record returned by either query is the sum,
    from 0, of +1 for each UPVOTE, -1 for each DOWNVOTE and 0 for anything
    else over the Question's votes, that is the number of its UPVOTE rows
    minus the number of its DOWNVOTE rows; [getQuestionsByFilter] returns
    such a record for every Question it retains and [getQuestionById] for
    every stored Question that has an encounter. *)
Theorem numVotes_is_upvotes_minus_downvotes :
  (forall vs,
      reduceVotes vs = fold_right (fun v acc => contribution v + acc) 0 vs
      /\ reduceVotes vs = countVotes Vote.UPVOTE vs - countVotes Vote.DOWNVOTE vs)
  /\ (forall ctx i db,
         exists result,
           getQuestionsByFilter.resolve ctx i db = (db, Returns result)
           /\ Forall2 (fun data q =>
                         Question.numVotes q = score (QuestionData.votes data))
                      (retained i db) result)
  /\ (forall ctx i db db' q,
         getQuestionById.resolve ctx i db = (db', Returns q) ->
         exists row,
           questionsQuestion.lookup (getQuestionById.id i) db = Some row
           /\ Question.numVotes q
              = score (QuestionData.votes (questionsQuestion.include db row)))
  /\ (forall ctx i db row,
         questionsQuestion.lookup (getQuestionById.id i) db = Some row ->
         QuestionData.encounters (questionsQuestion.include db row) <> [] ->
         exists q,
           getQuestionById.resolve ctx i db = (db, Returns q)
           /\ Question.numVotes q
              = score (QuestionData.votes (questionsQuestion.include db row))).
Proof.
  split; [| split; [| split]]; cycle 3.
  - intros ctx i db row Hrow Hne.
    destruct (shape_nonempty _ Hne) as [first [rest [_ Hs]]].
    eexists. rewrite getQuestionById_unfold, Hrow. split; [rewrite Hs; reflexivity |].
    apply (shape_numVotes _ _ Hs).
  - intros vs. split.
    + unfold reduceVotes. rewrite fold_reduceVote. lia.
    + apply reduceVotes_score.
  - intros ctx i db. destruct (retained_shapes i db) as [result Hres].
    exists result. rewrite getQuestionsByFilter_unfold, Hres.
    split; [reflexivity |].
    apply mapO_Forall2 in Hres.
    eapply Forall2_impl; [| exact Hres].
    intros data q Hs. apply shape_numVotes. assumption.
  - intros ctx i db db' q H.
    apply getQuestionById_Returns in H. destruct H as [_ [row [Hl Hs]]].
    exists row. split; [assumption | apply shape_numVotes; assumption].
Qed.

Lemma numVotes_of_sample :
  exists q,
    getQuestionById.resolve Sample.anonymous (getQuestionById.mkInput "q1") Sample.db
    = (Sample.db, Returns q)
    /\ Question.numVotes q = 2.
Proof.
  apply (proj2 (proj2 (proj2 numVotes_is_upvotes_minus_downvotes))
           Sample.anonymous (getQuestionById.mkInput "q1") Sample.db Sample.twoSum
           eq_refl).
  discriminate.
Defined.

(** ** The display record *)

Lemma shape_showsFirstEncounter (data : QuestionData.t) (q : Question.t) :
  shape data = Returns q -> showsFirstEncounter data q.
Proof.
  intros H. apply shape_Returns in H. destruct H as [first [rest [He ->]]].
  exists first, rest. split; [assumption |]. simpl.
  repeat split.
  - intros l Hl. rewrite Hl. reflexivity.
  - intros Hl. rewrite Hl. reflexivity.
  - intros r Hr. rewrite Hr. reflexivity.
  - intros Hr. rewrite Hr. reflexivity.
  - intros Hu. rewrite Hu. reflexivity.
Qed.

(** C7: in a record returned by either query, company, location, role and
    seenAt come from the first encounter of the Question, an absent
    location or role of that encounter shows as "Unknown location" or
    "Unknown role", and an absent user relation shows as the empty user
    name; [getQuestionsByFilter] returns such a record for every Question
    it retains and [getQuestionById] for every stored Question that has an
    encounter. *)
Theorem shaped_fields_come_from_first_encounter :
  (forall data q, shape data = Returns q -> showsFirstEncounter data q)
  /\ (forall ctx i db,
         exists result,
           getQuestionsByFilter.resolve ctx i db = (db, Returns result)
           /\ Forall2 showsFirstEncounter (retained i db) result)
  /\ (forall ctx i db db' q,
         getQuestionById.resolve ctx i db = (db', Returns q) ->
         exists row,
           questionsQuestion.lookup (getQuestionById.id i) db = Some row
           /\ showsFirstEncounter (questionsQuestion.include db row) q)
  /\ (forall ctx i db row,
         questionsQuestion.lookup (getQuestionById.id i) db = Some row ->
         QuestionData.encounters (questionsQuestion.include db row) <> [] ->
         exists q,
           getQuestionById.resolve ctx i db = (db, Returns q)
           /\ showsFirstEncounter (questionsQuestion.include db row) q).
Proof.
  split; [exact shape_showsFirstEncounter | split; [| split]]; cycle 2.
  - intros ctx i db row Hrow Hne.
    destruct (shape_nonempty _ Hne) as [first [rest [_ Hs]]].
    eexists. rewrite getQuestionById_unfold, Hrow. split; [rewrite Hs; reflexivity |].
    apply (shape_showsFirstEncounter _ _ Hs).
  - intros ctx i db. destruct (retained_shapes i db) as [result Hres].
    exists result. rewrite getQuestionsByFilter_unfold, Hres.
    split; [reflexivity |].
    apply mapO_Forall2 in Hres.
    eapply Forall2_impl; [| exact Hres].
    exact shape_showsFirstEncounter.
  - intros ctx i db db' q H.
    apply getQuestionById_Returns in H. destruct H as [_ [row [Hl Hs]]].
    exists row. split; [assumption | apply shape_showsFirstEncounter; assumption].
Qed.

Lemma shaped_fields_of_sample :
  exists q,
    getQuestionById.resolve Sample.anonymous (getQuestionById.mkInput "q1") Sample.db
    = (Sample.db, Returns q)
    /\ showsFirstEncounter (questionsQuestion.include Sample.db Sample.twoSum) q.
Proof.
  apply (proj2 (proj2 (proj2 shaped_fields_come_from_first_encounter))
           Sample.anonymous (getQuestionById.mkInput "q1") Sample.db Sample.twoSum
           eq_refl).
  discriminate.
Defined.

(** The user name is also empty when the user is there and has no name. *)
Lemma shape_user_without_name (data : QuestionData.t) (q : Question.t) (u : User.t) :
  shape data = Returns q ->
  QuestionData.user data = Some u ->
  Question.user q = nullish (User.name u) "".
Proof.
  intros H Hu. apply shape_Returns in H. destruct H as [first [rest [_ ->]]].
  simpl. rewrite Hu. reflexivity.
Qed.

(** ** Looking a Question up by its id *)

(** C6: for an id that no stored Question has, [getQuestionById] throws
    NOT_FOUND and leaves the tables as they were; it returns nothing. *)
Theorem getQuestionById_unknown_id_throws_NOT_FOUND
    (ctx : Context) (i : getQuestionById.input) (db : Db) :
  unknownQuestion (getQuestionById.id i) db ->
  getQuestionById.resolve ctx i db = (db, Throws (TRPCError NOT_FOUND))
  /\ forall db' q, getQuestionById.resolve ctx i db <> (db', Returns q).
Proof.
  intros Hunknown. apply lookup_None_unknown in Hunknown.
  rewrite getQuestionById_unfold, Hunknown.
  split; [reflexivity | discriminate].
Qed.

Lemma getQuestionById_unknown_id_of_sample :
  getQuestionById.resolve Sample.anonymous (getQuestionById.mkInput "q9") Sample.db
  = (Sample.db, Throws (TRPCError NOT_FOUND))
  /\ forall db' q,
       getQuestionById.resolve Sample.anonymous (getQuestionById.mkInput "q9")
         Sample.db <> (db', Returns q).
Proof.
  apply (getQuestionById_unknown_id_throws_NOT_FOUND Sample.anonymous
           (getQuestionById.mkInput "q9") Sample.db).
  intros q Hin. simpl in Hin.
  destruct Hin as [<- | [<- | []]]; simpl; discriminate.
Defined.

(** NOT_FOUND is thrown for no other id. *)
Lemma getQuestionById_NOT_FOUND_only_if_unknown
    (ctx : Context) (i : getQuestionById.input) (db db' : Db) :
  getQuestionById.resolve ctx i db = (db', Throws (TRPCError NOT_FOUND)) ->
  unknownQuestion (getQuestionById.id i) db.
Proof.
  rewrite getQuestionById_unfold. intros H. apply lookup_None_unknown.
  destruct (questionsQuestion.lookup (getQuestionById.id i) db) as [row|];
    [| reflexivity].
  injection H as _ H. unfold shape in H.
  destruct (nth_error _ 0); discriminate.
Qed.

(** ** The read of the first encounter *)

(** C10: every Question that [getQuestionsByFilter] retains has an
    encounter, so that query always returns; [getQuestionById] on a stored
    Question returns when the Question has an encounter and throws on the
    read of the first encounter when it has none. *)
Theorem first_encounter_read_defined :
  (forall ctx i db,
      (forall data, In data (retained i db) -> QuestionData.encounters data <> [])
      /\ exists result, getQuestionsByFilter.resolve ctx i db = (db, Returns result))
  /\ (forall ctx i db row,
         questionsQuestion.lookup (getQuestionById.id i) db = Some row ->
         (QuestionData.encounters (questionsQuestion.include db row) <> [] ->
          exists q, getQuestionById.resolve ctx i db = (db, Returns q))
         /\ (QuestionData.encounters (questionsQuestion.include db row) = [] ->
             getQuestionById.resolve ctx i db = (db, Throws TypeError))).
Proof.
  split.
  - intros ctx i db. split.
    + intros data Hin. apply filter_In in Hin. destruct Hin as [_ Hkeep].
      exact (anyMatches_nonempty _ _ Hkeep).
    + destruct (retained_shapes i db) as [result Hres].
      exists result. rewrite getQuestionsByFilter_unfold, Hres. reflexivity.
  - intros ctx i db row Hrow. rewrite getQuestionById_unfold, Hrow. split.
    + intros Hne. destruct (shape_nonempty _ Hne) as [first [rest [_ Hs]]].
      rewrite Hs. eauto.
    + intros He. rewrite (shape_empty _ He). reflexivity.
Qed.

Lemma first_encounter_read_of_sample :
  getQuestionById.resolve Sample.anonymous (getQuestionById.mkInput "q2") Sample.db
  = (Sample.db, Throws TypeError).
Proof.
  exact (proj2 (proj2 first_encounter_read_defined Sample.anonymous
                  (getQuestionById.mkInput "q2") Sample.db Sample.cache eq_refl)
           eq_refl).
Defined.

(** ** Ownership checks *)

Section Ownership.

Lemma differs_from_id (id : string) (caller : option string) :
  strict_differs (JsString id) (orUndefined caller) = false <-> caller = Some id.
Proof.
  unfold strict_differs. rewrite negb_false_iff.
  destruct caller as [u|]; simpl.
  - rewrite String.eqb_eq. split; [intros -> | intros H; injection H as ->];
      reflexivity.
  - split; discriminate.
Qed.

Lemma differs_from_user (rowUserId caller : option string) :
  strict_differs (orNull rowUserId) (orUndefined caller) = false
  <-> sameUser rowUserId caller.
Proof.
  unfold strict_differs, sameUser. rewrite negb_false_iff.
  destruct rowUserId as [r|], caller as [u|]; simpl.
  - rewrite String.eqb_eq. split.
    + intros ->. exists u. split; reflexivity.
    + intros [w [Hr Hu]]. congruence.
  - split; [discriminate | intros [w [_ H]]; discriminate].
  - split; [discriminate | intros [w [H _]]; discriminate].
  - split; [discriminate | intros [w [H _]]; discriminate].
Qed.

Lemma update_unfold (ctx : Context) (i : update.input) (db : Db) :
  update.resolve ctx i db
  = if strict_differs
         (optionalChain (questionsQuestion.lookup (update.id i) db)
            (fun q => JsString (QuestionsQuestion.id q)))
         (orUndefined (session_user_id ctx))
    then (db, Throws (TRPCError UNAUTHORIZED))
    else questionsQuestion.update (update.id i) (update.content i)
           (update.questionType i) db.
Proof.
  unfold update.resolve, bind, questionsQuestion.findUnique. cbv zeta iota beta.
  destruct (strict_differs _ _); reflexivity.
Qed.

Lemma delete_unfold (ctx : Context) (i : delete.input) (db : Db) :
  delete.resolve ctx i db
  = if strict_differs
         (optionalChain (questionsQuestion.lookup (delete.id i) db)
            (fun q => JsString (QuestionsQuestion.id q)))
         (orUndefined (session_user_id ctx))
    then (db, Throws (TRPCError UNAUTHORIZED))
    else questionsQuestion.delete (delete.id i) db.
Proof.
  unfold delete.resolve, bind, questionsQuestion.findUnique. cbv zeta iota beta.
  destruct (strict_differs _ _); reflexivity.
Qed.

Lemma updateVote_unfold (ctx : Context) (i : updateVote.input) (db : Db) :
  updateVote.resolve ctx i db
  = if strict_differs
         (optionalChain (questionsQuestionVote.lookup (updateVote.id i) db)
            (fun v => orNull (QuestionsQuestionVote.userId v)))
         (orUndefined (session_user_id ctx))
    then (db, Throws (TRPCError UNAUTHORIZED))
    else questionsQuestionVote.update (updateVote.id i) (updateVote.vote i) db.
Proof.
  unfold updateVote.resolve, bind, questionsQuestionVote.findUnique.
  cbv zeta iota beta.
  destruct (strict_differs _ _); reflexivity.
Qed.

Lemma deleteVote_unfold (ctx : Context) (i : deleteVote.input) (db : Db) :
  deleteVote.resolve ctx i db
  = if strict_differs
         (optionalChain (questionsQuestionVote.lookup (deleteVote.id i) db)
            (fun v => orNull (QuestionsQuestionVote.userId v)))
         (orUndefined (session_user_id ctx))
    then (db, Throws (TRPCError UNAUTHORIZED))
    else questionsQuestionVote.delete (deleteVote.id i) db.
Proof.
  unfold deleteVote.resolve, bind, questionsQuestionVote.findUnique.
  cbv zeta iota beta.
  destruct (strict_differs _ _); reflexivity.
Qed.

Lemma setColumns_partiallyUpdated (content questionType : option string)
    (q : QuestionsQuestion.t) :
  questionsQuestion.setColumns content questionType q
  = partiallyUpdated content questionType q.
Proof. reflexivity. Qed.

Lemma questionsQuestion_update_found (id : string) (content questionType : option string)
    (db : Db) (q : QuestionsQuestion.t) :
  questionsQuestion.lookup id db = Some q ->
  questionsQuestion.update id content questionType db
  = (withQuestions
       (changeWhere QuestionsQuestion.id id (partiallyUpdated content questionType)
          (questions db)) db,
     Returns (partiallyUpdated content questionType q)).
Proof.
  intros H. unfold questionsQuestion.update. rewrite H. reflexivity.
Qed.

Lemma questionsQuestion_delete_found (id : string) (db : Db) (q : QuestionsQuestion.t) :
  questionsQuestion.lookup id db = Some q ->
  questionsQuestion.delete id db
  = (withQuestions (removeWhere QuestionsQuestion.id id (questions db)) db,
     Returns q).
Proof.
  intros H. unfold questionsQuestion.delete. rewrite H. reflexivity.
Qed.

Lemma vote_update_found (id vote : string) (db : Db) (v : QuestionsQuestionVote.t) :
  questionsQuestionVote.lookup id db = Some v ->
  questionsQuestionVote.update id vote db
  = (withVotes (changeWhere QuestionsQuestionVote.id id (revoted vote) (votes db)) db,
     Returns (revoted vote v)).
Proof.
  intros H. unfold questionsQuestionVote.update. rewrite H. reflexivity.
Qed.

Lemma vote_delete_found (id : string) (db : Db) (v : QuestionsQuestionVote.t) :
  questionsQuestionVote.lookup id db = Some v ->
  questionsQuestionVote.delete id db
  = (withVotes (removeWhere QuestionsQuestionVote.id id (votes db)) db, Returns v).
Proof.
  intros H. unfold questionsQuestionVote.delete. rewrite H. reflexivity.
Qed.

(** What [changeWhere] and [removeWhere] do to a table. *)
Lemma changeWhere_other {A : Type} (id : A -> string) (target : string)
    (change : A -> A) (rows : list A) (r : A) :
  In r rows -> id r <> target -> In r (changeWhere id target change rows).
Proof.
  intros Hin Hne. unfold changeWhere. apply in_map_iff. exists r.
  split; [| assumption].
  destruct (String.eqb_spec (id r) target); [contradiction | reflexivity].
Qed.

Lemma changeWhere_In {A : Type} (id : A -> string) (target : string)
    (change : A -> A) (rows : list A) (r' : A) :
  In r' (changeWhere id target change rows) ->
  exists r, In r rows
            /\ ((id r = target /\ r' = change r) \/ (id r <> target /\ r' = r)).
Proof.
  unfold changeWhere. rewrite in_map_iff. intros [r [Heq Hin]].
  exists r. split; [assumption |].
  destruct (String.eqb_spec (id r) target); [left | right]; split; congruence.
Qed.

Lemma changeWhere_length {A : Type} (id : A -> string) (target : string)
    (change : A -> A) (rows : list A) :
  length (changeWhere id target change rows) = length rows.
Proof. unfold changeWhere. apply length_map. Qed.

Lemma removeWhere_In {A : Type} (id : A -> string) (target : string)
    (rows : list A) (r : A) :
  In r (removeWhere id target rows) <-> In r rows /\ id r <> target.
Proof.
  unfold removeWhere. rewrite filter_In, negb_true_iff.
  destruct (String.eqb_spec (id r) target); split; intros [H1 H2];
    split; congruence.
Qed.

End Ownership.

(** C2: [update] and [delete] on a stored Question compare the id of the
    fetched Question, not its [userId], with the caller's userId: they
    throw UNAUTHORIZED exactly when the two differ, and otherwise [update]
    sets the content and the type that are given and [delete] removes the
    Question row. *)
Theorem update_delete_authorize_by_question_id :
  (forall ctx i db q,
      questionsQuestion.lookup (update.id i) db = Some q ->
      (update.resolve ctx i db = (db, Throws (TRPCError UNAUTHORIZED))
       <-> session_user_id ctx <> Some (QuestionsQuestion.id q))
      /\ (session_user_id ctx = Some (QuestionsQuestion.id q) ->
          update.resolve ctx i db
          = (withQuestions
               (changeWhere QuestionsQuestion.id (update.id i)
                  (partiallyUpdated (update.content i) (update.questionType i))
                  (questions db)) db,
             Returns (partiallyUpdated (update.content i) (update.questionType i) q))))
  /\ (forall ctx i db q,
         questionsQuestion.lookup (delete.id i) db = Some q ->
         (delete.resolve ctx i db = (db, Throws (TRPCError UNAUTHORIZED))
          <-> session_user_id ctx <> Some (QuestionsQuestion.id q))
         /\ (session_user_id ctx = Some (QuestionsQuestion.id q) ->
             delete.resolve ctx i db
             = (withQuestions
                  (removeWhere QuestionsQuestion.id (delete.id i) (questions db)) db,
                Returns q))).
Proof.
  split; intros ctx i db q Hq.
  - rewrite update_unfold, Hq. simpl optionalChain.
    destruct (strict_differs _ _) eqn:Hd.
    + assert (Hne : session_user_id ctx <> Some (QuestionsQuestion.id q)).
      { intros Heq. apply differs_from_id in Heq. congruence. }
      split; [split; [intros _; exact Hne | reflexivity] | contradiction].
    + apply differs_from_id in Hd.
      rewrite (questionsQuestion_update_found _ _ _ _ _ Hq).
      split; [split; [discriminate | contradiction] | reflexivity].
  - rewrite delete_unfold, Hq. simpl optionalChain.
    destruct (strict_differs _ _) eqn:Hd.
    + assert (Hne : session_user_id ctx <> Some (QuestionsQuestion.id q)).
      { intros Heq. apply differs_from_id in Heq. congruence. }
      split; [split; [intros _; exact Hne | reflexivity] | contradiction].
    + apply differs_from_id in Hd.
      rewrite (questionsQuestion_delete_found _ _ _ Hq).
      split; [split; [discriminate | contradiction] | reflexivity].
Qed.

(** The owner of the sample Question is turned away, and a caller whose
    userId is the Question's id is let through. *)
Lemma update_of_sample_by_owner_and_by_namesake :
  update.resolve (Sample.asUser "u1")
    (update.mkInput (Some "Three sum") "q1" None) Sample.db
  = (Sample.db, Throws (TRPCError UNAUTHORIZED))
  /\ update.resolve (Sample.asUser "q1")
       (update.mkInput (Some "Three sum") "q1" None) Sample.db
     = (withQuestions
          [QuestionsQuestion.mk "q1" (Some "u1") "Three sum" "CODING" 100 100;
           Sample.cache] Sample.db,
        Returns (QuestionsQuestion.mk "q1" (Some "u1") "Three sum" "CODING" 100 100)).
Proof.
  split.
  - apply (proj1 update_delete_authorize_by_question_id (Sample.asUser "u1")
             (update.mkInput (Some "Three sum") "q1" None) Sample.db Sample.twoSum
             eq_refl).
    discriminate.
  - exact (proj2 (proj1 update_delete_authorize_by_question_id (Sample.asUser "q1")
                    (update.mkInput (Some "Three sum") "q1" None) Sample.db
                    Sample.twoSum eq_refl) eq_refl).
Defined.

(** The [userId] of the Question plays no part: its owner is rejected
    whenever the owner's id is not also the Question's id. *)
Lemma update_delete_reject_owner (u : string) (db : Db) (q : QuestionsQuestion.t)
    (content questionType : option string) :
  questionsQuestion.lookup (QuestionsQuestion.id q) db = Some q ->
  QuestionsQuestion.userId q = Some u ->
  QuestionsQuestion.id q <> u ->
  update.resolve (mkContext (Some u))
    (update.mkInput content (QuestionsQuestion.id q) questionType) db
  = (db, Throws (TRPCError UNAUTHORIZED))
  /\ delete.resolve (mkContext (Some u)) (delete.mkInput (QuestionsQuestion.id q)) db
     = (db, Throws (TRPCError UNAUTHORIZED)).
Proof.
  intros Hq _ Hne. rewrite update_unfold, delete_unfold. simpl.
  rewrite Hq. simpl.
  destruct (strict_differs _ _) eqn:Hd; [split; reflexivity |].
  apply (differs_from_id _ (Some u)) in Hd. congruence.
Qed.

(** C5: [updateVote] and [deleteVote] on a stored Vote throw UNAUTHORIZED
    and leave the tables as they were when the caller is not the Vote's
    user; when the caller is, [updateVote] changes the [vote] of the row
    and nothing else, and [deleteVote] removes the row. *)
Theorem updateVote_deleteVote_authorize_by_vote_user :
  (forall ctx i db v,
      questionsQuestionVote.lookup (updateVote.id i) db = Some v ->
      (~ sameUser (QuestionsQuestionVote.userId v) (session_user_id ctx) ->
       updateVote.resolve ctx i db = (db, Throws (TRPCError UNAUTHORIZED)))
      /\ (sameUser (QuestionsQuestionVote.userId v) (session_user_id ctx) ->
          updateVote.resolve ctx i db
          = (withVotes
               (changeWhere QuestionsQuestionVote.id (updateVote.id i)
                  (revoted (updateVote.vote i)) (votes db)) db,
             Returns (revoted (updateVote.vote i) v))))
  /\ (forall ctx i db v,
         questionsQuestionVote.lookup (deleteVote.id i) db = Some v ->
         (~ sameUser (QuestionsQuestionVote.userId v) (session_user_id ctx) ->
          deleteVote.resolve ctx i db = (db, Throws (TRPCError UNAUTHORIZED)))
         /\ (sameUser (QuestionsQuestionVote.userId v) (session_user_id ctx) ->
             deleteVote.resolve ctx i db
             = (withVotes
                  (removeWhere QuestionsQuestionVote.id (deleteVote.id i) (votes db)) db,
                Returns v))).
Proof.
  split; intros ctx i db v Hv.
  - rewrite updateVote_unfold, Hv. simpl optionalChain.
    destruct (strict_differs _ _) eqn:Hd.
    + split; [reflexivity |].
      intros Hsame. apply differs_from_user in Hsame. congruence.
    + apply differs_from_user in Hd.
      rewrite (vote_update_found _ _ _ _ Hv).
      split; [contradiction | reflexivity].
  - rewrite deleteVote_unfold, Hv. simpl optionalChain.
    destruct (strict_differs _ _) eqn:Hd.
    + split; [reflexivity |].
      intros Hsame. apply differs_from_user in Hsame. congruence.
    + apply differs_from_user in Hd.
      rewrite (vote_delete_found _ _ _ Hv).
      split; [contradiction | reflexivity].
Qed.

Lemma updateVote_deleteVote_of_sample :
  updateVote.resolve (Sample.asUser "u9") (updateVote.mkInput "v3" Vote.UPVOTE) Sample.db
  = (Sample.db, Throws (TRPCError UNAUTHORIZED))
  /\ deleteVote.resolve (Sample.asUser "u3") (deleteVote.mkInput "v3") Sample.db
     = (withVotes
          (removeWhere QuestionsQuestionVote.id "v3" (votes Sample.db)) Sample.db,
        Returns (QuestionsQuestionVote.mk "v3" "q1" (Some "u3") Vote.DOWNVOTE)).
Proof.
  split.
  - apply (proj1 updateVote_deleteVote_authorize_by_vote_user (Sample.asUser "u9")
             (updateVote.mkInput "v3" Vote.UPVOTE) Sample.db
             (QuestionsQuestionVote.mk "v3" "q1" (Some "u3") Vote.DOWNVOTE) eq_refl).
    intros [u [H1 H2]]. simpl in H1, H2. congruence.
  - apply (proj2 updateVote_deleteVote_authorize_by_vote_user (Sample.asUser "u3")
             (deleteVote.mkInput "v3") Sample.db
             (QuestionsQuestionVote.mk "v3" "q1" (Some "u3") Vote.DOWNVOTE) eq_refl).
    exists "u3". split; reflexivity.
Defined.

(** A Vote without user is nobody's: a call without session user is turned
    away from it as well. *)
Lemma updateVote_deleteVote_reject_anonymous (db : Db) (v : QuestionsQuestionVote.t)
    (vote : string) :
  questionsQuestionVote.lookup (QuestionsQuestionVote.id v) db = Some v ->
  QuestionsQuestionVote.userId v = None ->
  updateVote.resolve (mkContext None)
    (updateVote.mkInput (QuestionsQuestionVote.id v) vote) db
  = (db, Throws (TRPCError UNAUTHORIZED))
  /\ deleteVote.resolve (mkContext None)
       (deleteVote.mkInput (QuestionsQuestionVote.id v)) db
     = (db, Throws (TRPCError UNAUTHORIZED)).
Proof.
  intros Hv Hu. rewrite updateVote_unfold, deleteVote_unfold. simpl.
  rewrite Hv. simpl. rewrite Hu. split; reflexivity.
Qed.

(** After an authorized [updateVote] the row reads back with the new vote
    and its other columns as before, and every other row is still there. *)
Lemma changeWhere_vote_lookup (id vote : string) (db : Db) (v : QuestionsQuestionVote.t) :
  questionsQuestionVote.lookup id db = Some v ->
  questionsQuestionVote.lookup id
    (withVotes (changeWhere QuestionsQuestionVote.id id (revoted vote) (votes db)) db)
  = Some (revoted vote v).
Proof.
  unfold questionsQuestionVote.lookup, withVotes, changeWhere. simpl.
  induction (votes db) as [|r rest IH]; simpl; [discriminate |].
  destruct (String.eqb (QuestionsQuestionVote.id r) id) eqn:Hr; simpl.
  - intros H. injection H as ->. rewrite Hr. reflexivity.
  - rewrite Hr. exact IH.
Qed.

(** After an authorized [deleteVote] no row has the id any more. *)
Lemma removeWhere_vote_lookup (id : string) (db : Db) :
  questionsQuestionVote.lookup id
    (withVotes (removeWhere QuestionsQuestionVote.id id (votes db)) db) = None.
Proof.
  unfold questionsQuestionVote.lookup, withVotes. simpl.
  destruct (find _ _) as [r|] eqn:Hf; [| reflexivity].
  apply find_some in Hf. destruct Hf as [Hin Heq].
  apply removeWhere_In in Hin. apply String.eqb_eq in Heq. tauto.
Qed.

(** ** Targets that are not stored *)

Lemma vote_lookup_None_unknown (id : string) (db : Db) :
  questionsQuestionVote.lookup id db = None <-> unknownVote id db.
Proof.
  unfold questionsQuestionVote.lookup, unknownVote. split.
  - intros H v Hin Heq.
    pose proof (find_none _ _ H v Hin) as Hv. simpl in Hv.
    rewrite Heq, String.eqb_refl in Hv. discriminate.
  - intros H.
    destruct (find _ (votes db)) as [v|] eqn:Hf; [| reflexivity].
    apply find_some in Hf. destruct Hf as [Hin Heq].
    apply String.eqb_eq in Heq. exfalso. exact (H v Hin Heq).
Qed.

Section MissingTarget.

Variable ctx : Context.
Variable db : Db.

Lemma update_missing (i : update.input) :
  unknownQuestion (update.id i) db ->
  update.resolve ctx i db
  = match session_user_id ctx with
    | Some _ => (db, Throws (TRPCError UNAUTHORIZED))
    | None => (db, Throws (PrismaError RecordNotFound))
    end
  /\ questionsQuestion.update (update.id i) (update.content i)
       (update.questionType i) db
     = (db, Throws (PrismaError RecordNotFound)).
Proof.
  intros Hmissing. apply lookup_None_unknown in Hmissing.
  rewrite update_unfold. unfold questionsQuestion.update. rewrite Hmissing.
  destruct (session_user_id ctx); split; reflexivity.
Qed.

Lemma delete_missing (i : delete.input) :
  unknownQuestion (delete.id i) db ->
  delete.resolve ctx i db
  = match session_user_id ctx with
    | Some _ => (db, Throws (TRPCError UNAUTHORIZED))
    | None => (db, Throws (PrismaError RecordNotFound))
    end
  /\ questionsQuestion.delete (delete.id i) db
     = (db, Throws (PrismaError RecordNotFound)).
Proof.
  intros Hmissing. apply lookup_None_unknown in Hmissing.
  rewrite delete_unfold. unfold questionsQuestion.delete. rewrite Hmissing.
  destruct (session_user_id ctx); split; reflexivity.
Qed.

Lemma updateVote_missing (i : updateVote.input) :
  unknownVote (updateVote.id i) db ->
  updateVote.resolve ctx i db
  = match session_user_id ctx with
    | Some _ => (db, Throws (TRPCError UNAUTHORIZED))
    | None => (db, Throws (PrismaError RecordNotFound))
    end.
Proof.
  intros Hmissing. apply vote_lookup_None_unknown in Hmissing.
  rewrite updateVote_unfold. unfold questionsQuestionVote.update.
  rewrite Hmissing. destruct (session_user_id ctx); reflexivity.
Qed.

Lemma deleteVote_missing (i : deleteVote.input) :
  unknownVote (deleteVote.id i) db ->
  deleteVote.resolve ctx i db
  = match session_user_id ctx with
    | Some _ => (db, Throws (TRPCError UNAUTHORIZED))
    | None => (db, Throws (PrismaError RecordNotFound))
    end.
Proof.
  intros Hmissing. apply vote_lookup_None_unknown in Hmissing.
  rewrite deleteVote_unfold. unfold questionsQuestionVote.delete.
  rewrite Hmissing. destruct (session_user_id ctx); reflexivity.
Qed.

End MissingTarget.

(** C9: when the target of [update], [delete], [updateVote] or
    [deleteVote] is not stored, the call does not throw NOT_FOUND: a caller
    with a userId gets UNAUTHORIZED, and for [update] and [delete] a call
    without session user passes the ownership check and goes on to the
    storage service with the id of the missing row. *)
Theorem missing_target_is_not_NOT_FOUND :
  (forall ctx i db,
      unknownQuestion (update.id i) db ->
      (forall u, session_user_id ctx = Some u ->
                 update.resolve ctx i db = (db, Throws (TRPCError UNAUTHORIZED)))
      /\ (session_user_id ctx = None ->
          update.resolve ctx i db
          = questionsQuestion.update (update.id i) (update.content i)
              (update.questionType i) db
          /\ update.resolve ctx i db = (db, Throws (PrismaError RecordNotFound)))
      /\ (forall db', update.resolve ctx i db <> (db', Throws (TRPCError NOT_FOUND))))
  /\ (forall ctx i db,
         unknownQuestion (delete.id i) db ->
         (forall u, session_user_id ctx = Some u ->
                    delete.resolve ctx i db = (db, Throws (TRPCError UNAUTHORIZED)))
         /\ (session_user_id ctx = None ->
             delete.resolve ctx i db = questionsQuestion.delete (delete.id i) db
             /\ delete.resolve ctx i db = (db, Throws (PrismaError RecordNotFound)))
         /\ (forall db', delete.resolve ctx i db <> (db', Throws (TRPCError NOT_FOUND))))
  /\ (forall ctx i db,
         unknownVote (updateVote.id i) db ->
         (forall u, session_user_id ctx = Some u ->
                    updateVote.resolve ctx i db = (db, Throws (TRPCError UNAUTHORIZED)))
         /\ (forall db',
                updateVote.resolve ctx i db <> (db', Throws (TRPCError NOT_FOUND))))
  /\ (forall ctx i db,
         unknownVote (deleteVote.id i) db ->
         (forall u, session_user_id ctx = Some u ->
                    deleteVote.resolve ctx i db = (db, Throws (TRPCError UNAUTHORIZED)))
         /\ (forall db',
                deleteVote.resolve ctx i db <> (db', Throws (TRPCError NOT_FOUND)))).
Proof.
  split; [| split; [| split]].
  - intros ctx i db Hmissing.
    destruct (update_missing ctx db i Hmissing) as [Hres Hstore].
    rewrite Hres, Hstore. split; [| split].
    + intros u ->. reflexivity.
    + intros ->. split; reflexivity.
    + intros db'. destruct (session_user_id ctx); discriminate.
  - intros ctx i db Hmissing.
    destruct (delete_missing ctx db i Hmissing) as [Hres Hstore].
    rewrite Hres, Hstore. split; [| split].
    + intros u ->. reflexivity.
    + intros ->. split; reflexivity.
    + intros db'. destruct (session_user_id ctx); discriminate.
  - intros ctx i db Hmissing. rewrite (updateVote_missing ctx db i Hmissing).
    split.
    + intros u ->. reflexivity.
    + intros db'. destruct (session_user_id ctx); discriminate.
  - intros ctx i db Hmissing. rewrite (deleteVote_missing ctx db i Hmissing).
    split.
    + intros u ->. reflexivity.
    + intros db'. destruct (session_user_id ctx); discriminate.
Qed.

Lemma missing_target_of_sample :
  (forall u, session_user_id (Sample.asUser "u1") = Some u ->
             update.resolve (Sample.asUser "u1")
               (update.mkInput (Some "Three sum") "q9" None) Sample.db
             = (Sample.db, Throws (TRPCError UNAUTHORIZED)))
  /\ (session_user_id Sample.anonymous = None ->
      delete.resolve Sample.anonymous (delete.mkInput "q9") Sample.db
      = questionsQuestion.delete "q9" Sample.db
      /\ delete.resolve Sample.anonymous (delete.mkInput "q9") Sample.db
         = (Sample.db, Throws (PrismaError RecordNotFound))).
Proof.
  assert (Hmissing : unknownQuestion "q9" Sample.db).
  { intros q Hin. simpl in Hin.
    destruct Hin as [<- | [<- | []]]; simpl; discriminate. }
  split.
  - exact (proj1 (proj1 missing_target_is_not_NOT_FOUND (Sample.asUser "u1")
                    (update.mkInput (Some "Three sum") "q9" None) Sample.db
                    Hmissing)).
  - exact (proj1 (proj2 (proj1 (proj2 missing_target_is_not_NOT_FOUND)
                           Sample.anonymous (delete.mkInput "q9") Sample.db
                           Hmissing))).
Defined.

(** ** Creating a Question *)

Section Create.

Variable ctx : Context.
Variable i : create.input.
Variable g : create.generated.

Let q := createdQuestion ctx i (create.forQuestion g).
Let nested := matchingEncounter ctx i (new_id (create.forQuestion g))
                (create.forNestedEncounter g).
Let second := matchingEncounter ctx i (new_id (create.forQuestion g))
                (create.forEncounter g).

(** The tables after the first write. *)
Let afterFirst (db : Db) : Db :=
  mkDb (users db) (questions db ++ [q]) (encounters db ++ [nested]) (votes db)
       (answers db) (comments db).

(** The tables after both writes. *)
Let afterBoth (db : Db) : Db :=
  mkDb (users db) (questions db ++ [q]) (encounters db ++ [nested; second])
       (votes db) (answers db) (comments db).

Lemma first_write (db : Db) :
  questionsQuestion.create (create.content i) (create.questionType i)
    (session_user_id ctx)
    [(create.forNestedEncounter g, create.encounterData (session_user_id ctx) i)]
    (create.forQuestion g) db
  = if match questionsQuestion.lookup (new_id (create.forQuestion g)) db with
       | Some _ => true
       | None => false
       end
       || questionsQuestion.encounterIdTaken
            (new_id (create.forNestedEncounter g)) (encounters db)
    then (db, Throws (PrismaError UniqueConstraintFailed))
    else (afterFirst db, Returns q).
Proof.
  unfold questionsQuestion.create. cbn [questionsQuestion.addEncounters].
  destruct (questionsQuestion.lookup _ db);
    destruct (questionsQuestion.encounterIdTaken _ (encounters db)); reflexivity.
Qed.

Lemma second_write (db : Db) :
  questionsQuestionEncounter.create (QuestionsQuestion.id q)
    (create.encounterData (session_user_id ctx) i) (create.forEncounter g)
    (afterFirst db)
  = if questionsQuestion.encounterIdTaken (new_id (create.forEncounter g))
         (encounters db ++ [nested])
    then (afterFirst db, Throws (PrismaError UniqueConstraintFailed))
    else (afterBoth db, Returns second).
Proof.
  unfold questionsQuestionEncounter.create. cbn [encounters afterFirst].
  destruct (questionsQuestion.encounterIdTaken _ _); [reflexivity |].
  unfold afterBoth. cbn. rewrite <- app_assoc. reflexivity.
Qed.

(** The three ways a call of [create] can end. *)
Lemma create_cases (db : Db) :
  create.resolve ctx i g db
  = if match questionsQuestion.lookup (new_id (create.forQuestion g)) db with
       | Some _ => true
       | None => false
       end
       || questionsQuestion.encounterIdTaken
            (new_id (create.forNestedEncounter g)) (encounters db)
    then (db, Throws (PrismaError UniqueConstraintFailed))
    else if questionsQuestion.encounterIdTaken (new_id (create.forEncounter g))
              (encounters db ++ [nested])
         then (afterFirst db, Throws (PrismaError UniqueConstraintFailed))
         else (afterBoth db, Returns q).
Proof.
  unfold create.resolve, bind. cbv zeta. rewrite first_write.
  destruct (_ || _); [reflexivity |].
  change (QuestionsQuestion.id q) with (new_id (create.forQuestion g)).
  pose proof (second_write db) as Hsecond.
  change (QuestionsQuestion.id q) with (new_id (create.forQuestion g)) in Hsecond.
  rewrite Hsecond.
  destruct (questionsQuestion.encounterIdTaken _ _); reflexivity.
Qed.

Lemma create_Returns (db db' : Db) (question : QuestionsQuestion.t) :
  create.resolve ctx i g db = (db', Returns question) ->
  question = q /\ db' = afterBoth db.
Proof.
  rewrite create_cases.
  destruct (_ || _); [discriminate |].
  destruct (questionsQuestion.encounterIdTaken _ _); [discriminate |].
  intros H. injection H as <- <-. split; reflexivity.
Qed.

Lemma create_votes (db : Db) : votes (fst (create.resolve ctx i g db)) = votes db.
Proof.
  rewrite create_cases.
  destruct (_ || _); [reflexivity |].
  destruct (questionsQuestion.encounterIdTaken _ _); reflexivity.
Qed.

End Create.

(** C4, as the code has it: a call of [create] that returns has written
    one Question row owned by the caller and two Encounter rows for it,
    both with the company, location, role and seenAt of the input: one
    together with the Question, in the first write, and one more in the
    second write. *)
Theorem create_writes_two_encounter_rows
    (ctx : Context) (i : create.input) (g : create.generated) (db db' : Db)
    (question : QuestionsQuestion.t) :
  create.resolve ctx i g db = (db', Returns question) ->
  question = createdQuestion ctx i (create.forQuestion g)
  /\ QuestionsQuestion.userId question = session_user_id ctx
  /\ questions db' = (questions db ++ [question])%list
  /\ encounters db'
     = (encounters db
        ++ [matchingEncounter ctx i (QuestionsQuestion.id question)
              (create.forNestedEncounter g);
            matchingEncounter ctx i (QuestionsQuestion.id question)
              (create.forEncounter g)])%list
  /\ length (ofQuestion QuestionsQuestionEncounter.questionId
               (QuestionsQuestion.id question) (encounters db'))
     = S (S (length (ofQuestion QuestionsQuestionEncounter.questionId
                       (QuestionsQuestion.id question) (encounters db)))).
Proof.
  intros H. apply create_Returns in H. destruct H as [-> ->].
  cbn [questions encounters]. repeat split.
  unfold ofQuestion. rewrite filter_app, length_app. cbn.
  rewrite String.eqb_refl. cbn. lia.
Qed.

Lemma create_in_empty_store :
  let question := QuestionsQuestion.mk "q1" (Some "u1") "Two sum" "CODING" 7 7 in
  question = createdQuestion (Sample.asUser "u1")
               (create.mkInput "A" "Two sum" "Singapore" "CODING" "Engineer" 5)
               (mkGenerated "q1" 7)
  /\ QuestionsQuestion.userId question = Some "u1"
  /\ [question] = ([] ++ [question])%list
  /\ [QuestionsQuestionEncounter.mk "e1" "q1" (Some "u1") "A" (Some "Singapore")
        (Some "Engineer") 5;
      QuestionsQuestionEncounter.mk "e2" "q1" (Some "u1") "A" (Some "Singapore")
        (Some "Engineer") 5]
     = ([] ++ [matchingEncounter (Sample.asUser "u1")
                 (create.mkInput "A" "Two sum" "Singapore" "CODING" "Engineer" 5)
                 "q1" (mkGenerated "e1" 7);
               matchingEncounter (Sample.asUser "u1")
                 (create.mkInput "A" "Two sum" "Singapore" "CODING" "Engineer" 5)
                 "q1" (mkGenerated "e2" 7)])%list
  /\ 2%nat = 2%nat.
Proof.
  exact (create_writes_two_encounter_rows (Sample.asUser "u1")
           (create.mkInput "A" "Two sum" "Singapore" "CODING" "Engineer" 5)
           (create.mkGenerated3 (mkGenerated "q1" 7) (mkGenerated "e1" 7)
              (mkGenerated "e2" 7))
           emptyDb
           (mkDb [] [QuestionsQuestion.mk "q1" (Some "u1") "Two sum" "CODING" 7 7]
                 [QuestionsQuestionEncounter.mk "e1" "q1" (Some "u1") "A"
                    (Some "Singapore") (Some "Engineer") 5;
                  QuestionsQuestionEncounter.mk "e2" "q1" (Some "u1") "A"
                    (Some "Singapore") (Some "Engineer") 5]
                 [] [] [])
           (QuestionsQuestion.mk "q1" (Some "u1") "Two sum" "CODING" 7 7)
           eq_refl).
Defined.

(** The two writes are not one: when the second write is rejected, the
    Question and the encounter written with it stay. *)
Lemma create_second_write_rejected (ctx : Context) (i : create.input)
    (g : create.generated) (db : Db) :
  questionsQuestion.lookup (new_id (create.forQuestion g)) db = None ->
  questionsQuestion.encounterIdTaken (new_id (create.forNestedEncounter g))
    (encounters db) = false ->
  new_id (create.forEncounter g) = new_id (create.forNestedEncounter g) ->
  create.resolve ctx i g db
  = (mkDb (users db)
          (questions db ++ [createdQuestion ctx i (create.forQuestion g)])
          (encounters db
           ++ [matchingEncounter ctx i (new_id (create.forQuestion g))
                 (create.forNestedEncounter g)])
          (votes db) (answers db) (comments db),
     Throws (PrismaError UniqueConstraintFailed)).
Proof.
  intros Hq He Hsame. rewrite create_cases, Hq, He. cbn [orb].
  unfold questionsQuestion.encounterIdTaken at 1.
  rewrite existsb_app. cbn. rewrite Hsame, String.eqb_refl, orb_true_r.
  reflexivity.
Qed.

(** ** One vote per question and user *)

Section OneVote.

Lemma option_eqb_eq (a b : option string) : option_eqb a b = true <-> a = b.
Proof.
  destruct a as [s|], b as [t|]; simpl.
  - rewrite String.eqb_eq. split; [intros -> | intros H; injection H as ->];
      reflexivity.
  - split; discriminate.
  - split; discriminate.
  - split; reflexivity.
Qed.

Lemma hasKey_true (questionId : string) (userId : option string)
    (v : QuestionsQuestionVote.t) :
  questionsQuestionVote.hasKey questionId userId v = true
  <-> QuestionsQuestionVote.questionId v = questionId
      /\ QuestionsQuestionVote.userId v = userId.
Proof.
  unfold questionsQuestionVote.hasKey.
  rewrite andb_true_iff, String.eqb_eq, option_eqb_eq. reflexivity.
Qed.

Lemma existsb_false_filter {A : Type} (p : A -> bool) (rows : list A) :
  existsb p rows = false -> filter p rows = [].
Proof.
  induction rows as [|r rest IH]; simpl; [reflexivity |].
  destruct (p r); simpl; [discriminate | exact IH].
Qed.

(** The outcome of the insertion of a Vote. *)
Lemma pairTaken_false (questionId : string) (userId : option string)
    (rows : list QuestionsQuestionVote.t) (u : string) :
  questionsQuestionVote.pairTaken questionId userId rows = false ->
  userId = Some u ->
  filter (questionsQuestionVote.hasKey questionId userId) rows = [].
Proof.
  intros Hfree ->. apply existsb_false_filter. exact Hfree.
Qed.

(** The outcome of the insertion of a Vote. *)
Lemma vote_create_cases (questionId vote : string) (userId : option string)
    (g : Generated) (db db' : Db) (v : QuestionsQuestionVote.t) :
  questionsQuestionVote.create questionId vote userId g db = (db', Returns v) ->
  v = QuestionsQuestionVote.mk (new_id g) questionId userId vote
  /\ db' = withVotes (votes db ++ [v]) db
  /\ (forall u, userId = Some u -> votesOfPair questionId userId db = []).
Proof.
  unfold questionsQuestionVote.create.
  destruct (existsb _ (votes db)
            || questionsQuestionVote.pairTaken questionId userId (votes db))
    eqn:Hdup; [discriminate |].
  apply orb_false_iff in Hdup. destruct Hdup as [_ Hkey].
  intros H. injection H as <- <-.
  split; [reflexivity | split; [reflexivity |]].
  intros u Hu. exact (pairTaken_false _ _ _ u Hkey Hu).
Qed.

Lemma append_keeps_one_vote (db : Db) (v : QuestionsQuestionVote.t) :
  oneVotePerUser db ->
  (forall u, QuestionsQuestionVote.userId v = Some u ->
             votesOfPair (QuestionsQuestionVote.questionId v)
               (QuestionsQuestionVote.userId v) db = []) ->
  oneVotePerUser (withVotes (votes db ++ [v]) db).
Proof.
  intros Hone Hnew q u. unfold votesOfPair, withVotes. cbn [votes].
  rewrite filter_app, length_app. cbn [filter].
  destruct (questionsQuestionVote.hasKey q (Some u) v) eqn:Hk.
  - apply hasKey_true in Hk. destruct Hk as [Hq Hu].
    specialize (Hnew u Hu). rewrite Hq, Hu in Hnew.
    unfold votesOfPair in Hnew. rewrite Hnew. simpl. lia.
  - specialize (Hone q u). unfold votesOfPair in Hone. simpl. lia.
Qed.

Lemma revote_keeps_key_count (questionId : string) (userId : option string)
    (target vote : string) (rows : list QuestionsQuestionVote.t) :
  length (filter (questionsQuestionVote.hasKey questionId userId)
            (changeWhere QuestionsQuestionVote.id target (revoted vote) rows))
  = length (filter (questionsQuestionVote.hasKey questionId userId) rows).
Proof.
  unfold changeWhere.
  induction rows as [|r rest IH]; [reflexivity |].
  cbn [map filter].
  replace (questionsQuestionVote.hasKey questionId userId
             (if String.eqb (QuestionsQuestionVote.id r) target
              then revoted vote r else r))
    with (questionsQuestionVote.hasKey questionId userId r)
    by (destruct (String.eqb (QuestionsQuestionVote.id r) target); reflexivity).
  destruct (questionsQuestionVote.hasKey questionId userId r); cbn [length];
    rewrite IH; reflexivity.
Qed.

Lemma revote_keeps_one_vote (db : Db) (target vote : string) :
  oneVotePerUser db ->
  oneVotePerUser
    (withVotes (changeWhere QuestionsQuestionVote.id target (revoted vote) (votes db)) db).
Proof.
  intros Hone q u. specialize (Hone q u).
  unfold votesOfPair, withVotes in *. cbn [votes].
  rewrite revote_keeps_key_count. exact Hone.
Qed.

Lemma filter_filter_length {A : Type} (p keep : A -> bool) (rows : list A) :
  (length (filter p (filter keep rows)) <= length (filter p rows))%nat.
Proof.
  induction rows as [|r rest IH]; [simpl; lia |].
  cbn [filter]. destruct (keep r); cbn [filter]; destruct (p r); cbn [length]; lia.
Qed.

Lemma remove_keeps_one_vote (db : Db) (target : string) :
  oneVotePerUser db ->
  oneVotePerUser
    (withVotes (removeWhere QuestionsQuestionVote.id target (votes db)) db).
Proof.
  intros Hone q u. specialize (Hone q u).
  unfold votesOfPair, withVotes, removeWhere in *. cbn [votes].
  pose proof (filter_filter_length (questionsQuestionVote.hasKey q (Some u))
                (fun r => negb (String.eqb (QuestionsQuestionVote.id r) target))
                (votes db)) as Hle.
  lia.
Qed.

Lemma same_votes_keep_one_vote (db db' : Db) :
  votes db' = votes db -> oneVotePerUser db -> oneVotePerUser db'.
Proof.
  intros Hv Hone q u. unfold votesOfPair. rewrite Hv. apply Hone.
Qed.

(** Every call keeps the invariant. *)
Lemma call_keeps_one_vote (c : Call) (db : Db) :
  oneVotePerUser db -> oneVotePerUser (after c db).
Proof.
  intros Hone. destruct c as [ctx i | ctx i | ctx i g | ctx i | ctx i | ctx i
                             | ctx i g | ctx i | ctx i]; cbn [after].
  - rewrite getQuestionsByFilter_unfold. assumption.
  - rewrite getQuestionById_unfold.
    destruct (questionsQuestion.lookup _ db); assumption.
  - apply (same_votes_keep_one_vote db); [apply create_votes | assumption].
  - apply (same_votes_keep_one_vote db); [| assumption].
    rewrite update_unfold. destruct (strict_differs _ _); [reflexivity |].
    unfold questionsQuestion.update.
    destruct (questionsQuestion.lookup _ db); reflexivity.
  - apply (same_votes_keep_one_vote db); [| assumption].
    rewrite delete_unfold. destruct (strict_differs _ _); [reflexivity |].
    unfold questionsQuestion.delete.
    destruct (questionsQuestion.lookup _ db); reflexivity.
  - unfold getVote.resolve, questionsQuestionVote.findUniqueByQuestionIdUserId.
    destruct (session_user_id ctx); assumption.
  - destruct (createVote.resolve ctx i g db) as [db' [v|e]] eqn:Hcall.
    + unfold createVote.resolve in Hcall.
      apply vote_create_cases in Hcall. destruct Hcall as [Hv [-> Hnew]].
      cbn [fst]. apply append_keeps_one_vote; [assumption |].
      rewrite Hv. cbn [QuestionsQuestionVote.userId QuestionsQuestionVote.questionId].
      exact Hnew.
    + unfold createVote.resolve, questionsQuestionVote.create in Hcall.
      destruct (_ || _) in Hcall; [| discriminate].
      injection Hcall as <- _. assumption.
  - rewrite updateVote_unfold. destruct (strict_differs _ _); [assumption |].
    unfold questionsQuestionVote.update.
    destruct (questionsQuestionVote.lookup _ db); [| assumption].
    cbn [fst]. apply (revote_keeps_one_vote db). assumption.
  - rewrite deleteVote_unfold. destruct (strict_differs _ _); [assumption |].
    unfold questionsQuestionVote.delete.
    destruct (questionsQuestionVote.lookup _ db); [| assumption].
    cbn [fst]. apply (remove_keeps_one_vote db). assumption.
Qed.

Lemma reachable_keeps_one_vote (db0 db : Db) :
  oneVotePerUser db0 -> ReachableFrom db0 db -> oneVotePerUser db.
Proof.
  intros Hone Hreach. induction Hreach as [|c db Hreach IH].
  - assumption.
  - apply call_keeps_one_vote. assumption.
Qed.

End OneVote.



(** The constraint is the only guard: where it does not apply, for a call
    without session user, a second [createVote] for the same Question goes
    through and both rows are stored. *)
Lemma createVote_twice_without_user (i1 i2 : createVote.input) (g1 g2 : Generated)
    (db db1 : Db) (v1 : QuestionsQuestionVote.t) :
  createVote.resolve (mkContext None) i1 g1 db = (db1, Returns v1) ->
  unknownVote (new_id g2) db1 ->
  createVote.resolve (mkContext None) i2 g2 db1
  = (withVotes
       (votes db1
        ++ [QuestionsQuestionVote.mk (new_id g2) (createVote.questionId i2) None
              (createVote.vote i2)]) db1,
     Returns (QuestionsQuestionVote.mk (new_id g2) (createVote.questionId i2) None
                (createVote.vote i2))).
Proof.
  intros _ Hfresh. unfold createVote.resolve, questionsQuestionVote.create.
  cbn [session_user_id questionsQuestionVote.pairTaken].
  replace (existsb _ (votes db1)) with false; [reflexivity |].
  symmetry. apply vote_lookup_None_unknown in Hfresh.
  unfold questionsQuestionVote.lookup in Hfresh.
  destruct (existsb _ (votes db1)) eqn:He; [| reflexivity].
  apply existsb_exists in He. destruct He as [r [Hin Hr]].
  pose proof (find_none _ _ Hfresh r Hin) as Hno. cbn in Hno. congruence.
Qed.

(** The sample tables hold at most one Vote per pair. *)
Lemma sample_has_one_vote_per_pair : oneVotePerPair Sample.db.
Proof.
  intros q u. unfold votesOfPair, questionsQuestionVote.hasKey. cbn [votes Sample.db].
  cbn [filter QuestionsQuestionVote.questionId QuestionsQuestionVote.userId].
  destruct (String.eqb "q1" q); cbn [andb]; [| simpl; lia].
  destruct u as [u|]; cbn [option_eqb filter].
  - destruct (String.eqb_spec "u1" u) as [<- | H1]; [simpl; lia |].
    destruct (String.eqb_spec "u2" u) as [<- | H2]; [simpl; lia |].
    destruct (String.eqb_spec "u3" u) as [<- | H3]; simpl; lia.
  - simpl. lia.
Qed.

(** ** The list query on the stored tables *)

Section ListQuery.

Lemma insertDesc_In (q x : QuestionsQuestion.t) (sorted : list QuestionsQuestion.t) :
  In x (questionsQuestion.insertDesc q sorted) <-> x = q \/ In x sorted.
Proof.
  induction sorted as [|r rest IH]; simpl.
  - intuition.
  - destruct (QuestionsQuestion.createdAt r <=? QuestionsQuestion.createdAt q); simpl.
    + intuition.
    + rewrite IH. intuition.
Qed.

Lemma orderBy_In (x : QuestionsQuestion.t) (rows : list QuestionsQuestion.t) :
  In x (questionsQuestion.orderByCreatedAtDesc rows) <-> In x rows.
Proof.
  unfold questionsQuestion.orderByCreatedAtDesc.
  induction rows as [|r rest IH]; simpl; [reflexivity |].
  rewrite insertDesc_In, IH. intuition.
Qed.

Lemma insertDesc_sorted (q : QuestionsQuestion.t) (sorted : list QuestionsQuestion.t) :
  StronglySorted
    (fun a b => QuestionsQuestion.createdAt b <= QuestionsQuestion.createdAt a) sorted ->
  StronglySorted
    (fun a b => QuestionsQuestion.createdAt b <= QuestionsQuestion.createdAt a)
    (questionsQuestion.insertDesc q sorted).
Proof.
  induction 1 as [|r rest Hrest IH Hall]; simpl.
  - constructor; constructor.
  - destruct (Z.leb_spec (QuestionsQuestion.createdAt r) (QuestionsQuestion.createdAt q))
      as [Hle | Hgt].
    + constructor; [constructor; assumption |].
      constructor; [assumption |].
      eapply Forall_impl; [| exact Hall]. simpl. intros x Hx. lia.
    + constructor; [exact IH |].
      apply Forall_forall. intros x Hx. apply insertDesc_In in Hx.
      destruct Hx as [-> | Hx]; [lia |].
      rewrite Forall_forall in Hall. apply Hall. assumption.
Qed.

Lemma orderBy_sorted (rows : list QuestionsQuestion.t) :
  StronglySorted
    (fun a b => QuestionsQuestion.createdAt b <= QuestionsQuestion.createdAt a)
    (questionsQuestion.orderByCreatedAtDesc rows).
Proof.
  unfold questionsQuestion.orderByCreatedAtDesc.
  induction rows as [|r rest IH]; simpl; [constructor |].
  apply insertDesc_sorted. exact IH.
Qed.

Lemma map_sorted {A B : Type} (f : A -> B) (R : B -> B -> Prop) (l : list A) :
  StronglySorted (fun a b => R (f a) (f b)) l -> StronglySorted R (map f l).
Proof.
  induction 1 as [|a rest Hrest IH Hall]; simpl; constructor.
  - exact IH.
  - apply Forall_map. exact Hall.
Qed.

Lemma filter_sorted {A : Type} (p : A -> bool) (R : A -> A -> Prop) (l : list A) :
  StronglySorted R l -> StronglySorted R (filter p l).
Proof.
  induction 1 as [|a rest Hrest IH Hall]; simpl; [constructor |].
  destruct (p a); [| exact IH].
  constructor; [exact IH |].
  apply Forall_forall. intros x Hx. apply filter_In in Hx.
  rewrite Forall_forall in Hall. apply Hall. tauto.
Qed.

(** The rows the where clause selects. *)
Lemma fetched_In (i : getQuestionsByFilter.input) (db : Db) (data : QuestionData.t) :
  In data (fetched i db)
  <-> exists row, In row (questions db)
                  /\ data = questionsQuestion.include db row
                  /\ typeFilterMatches i row.
Proof.
  unfold fetched, questionsQuestion.selectMany, getQuestionsByFilter.whereClause,
    typeFilterMatches.
  rewrite in_map_iff.
  destruct (getQuestionsByFilter.questionTypes i) as [|t ts] eqn:Hts; cbn [length Nat.ltb Nat.leb].
  - split.
    + intros [row [<- Hin]]. rewrite orderBy_In in Hin.
      exists row. repeat split; [assumption | left; reflexivity].
    + intros [row [Hin [-> _]]]. exists row.
      split; [reflexivity | apply orderBy_In; assumption].
  - split.
    + intros [row [<- Hin]]. rewrite orderBy_In in Hin. rewrite filter_In in Hin.
      destruct Hin as [Hin Hty]. rewrite includes_In in Hty.
      destruct Hty as [s [Hs Hmem]]. injection Hs as <-.
      exists row. repeat split; [assumption | right; assumption].
    + intros [row [Hin [-> [Hnil | Hmem]]]]; [discriminate |].
      exists row. split; [reflexivity |].
      apply orderBy_In. apply filter_In. split; [assumption |].
      apply includes_In. eauto.
Qed.

Lemma ofQuestion_In {A : Type} (questionId : A -> string) (qid : string)
    (rows : list A) (r : A) :
  In r (ofQuestion questionId qid rows) <-> In r rows /\ questionId r = qid.
Proof.
  unfold ofQuestion. rewrite filter_In, String.eqb_eq. reflexivity.
Qed.

Lemma widening_keeps_match (wide narrow : getQuestionsByFilter.input)
    (e : QuestionsQuestionEncounter.t) :
  widens wide narrow -> encounterSatisfies narrow e -> encounterSatisfies wide e.
Proof.
  intros [_ [Hc [Hl [Hr [Hend Hstart]]]]] [Sc [Sl [Sr [Sstart Send]]]].
  assert (Hlist : forall wide' narrow' value,
             listFilterWidens wide' narrow' ->
             listFilterMatches narrow' value -> listFilterMatches wide' value).
  { intros w n value [Hw | [Hne Hincl]] [Hn | [s [Hs Hin]]].
    - left. assumption.
    - left. assumption.
    - contradiction.
    - right. exists s. split; [assumption | apply Hincl; assumption]. }
  repeat split; try (eapply Hlist; eassumption).
  - intros start Hs. destruct Hstart as [Hnone | [s [s' [Hn [Hw Hle]]]]].
    + congruence.
    + rewrite Hw in Hs. injection Hs as <-.
      specialize (Sstart s Hn). lia.
  - lia.
Qed.

End ListQuery.

(** X1: [getQuestionsByFilter] retains exactly the stored Questions whose
    type passes the type filter (no type list, or a list the type is in)
    and that have a stored encounter satisfying the encounter filters, each
    with its relations included. *)
Theorem getQuestionsByFilter_lists_matching_stored_questions
    (i : getQuestionsByFilter.input) (db : Db) (data : QuestionData.t) :
  In data (retained i db)
  <-> exists row,
        In row (questions db)
        /\ data = questionsQuestion.include db row
        /\ typeFilterMatches i row
        /\ exists e, In e (encounters db)
                     /\ QuestionsQuestionEncounter.questionId e
                        = QuestionsQuestion.id row
                     /\ encounterSatisfies i e.
Proof.
  unfold retained. rewrite filter_In, fetched_In.
  unfold getQuestionsByFilter.keep. rewrite anyMatches_iff. split.
  - intros [[row [Hin [-> Hty]]] [e [He Hsat]]].
    cbn [questionsQuestion.include QuestionData.encounters] in He.
    apply ofQuestion_In in He. destruct He as [He Hq].
    exists row. split; [assumption |]. split; [reflexivity |].
    split; [assumption |]. exists e.
    split; [assumption |]. split; assumption.
  - intros [row [Hin [-> [Hty [e [He [Hq Hsat]]]]]]]. split.
    + exists row. split; [assumption |]. split; [reflexivity | assumption].
    + exists e. split; [| assumption].
      cbn [questionsQuestion.include QuestionData.encounters].
      apply ofQuestion_In. split; assumption.
Qed.

Lemma sample_lists_two_sum_for_coding :
  In (questionsQuestion.include Sample.db Sample.twoSum)
     (retained (getQuestionsByFilter.mkInput [] 60 [] ["CODING"] [] (Some 40))
        Sample.db).
Proof.
  apply (proj2 (getQuestionsByFilter_lists_matching_stored_questions
                  (getQuestionsByFilter.mkInput [] 60 [] ["CODING"] [] (Some 40))
                  Sample.db (questionsQuestion.include Sample.db Sample.twoSum))).
  exists Sample.twoSum. split; [left; reflexivity |].
  split; [reflexivity |]. split; [right; left; reflexivity |].
  exists Sample.seenAtA. split; [left; reflexivity |]. split; [reflexivity |].
  unfold encounterSatisfies, listFilterMatches, withinDates. cbn.
  repeat split; try (left; reflexivity); try lia.
  intros start Hs. injection Hs as <-. lia.
Defined.

(** X2: the Questions [getQuestionsByFilter] retains come newest first, and
    the records it returns are theirs, one for one in that order. *)
Theorem getQuestionsByFilter_returns_newest_first
    (ctx : Context) (i : getQuestionsByFilter.input) (db : Db) :
  newestFirst (retained i db)
  /\ exists result,
       getQuestionsByFilter.resolve ctx i db = (db, Returns result)
       /\ map Question.id result
          = map (fun data => QuestionsQuestion.id (QuestionData.row data))
              (retained i db).
Proof.
  split.
  - unfold newestFirst, retained, fetched, questionsQuestion.selectMany.
    apply filter_sorted. apply map_sorted. cbn [questionsQuestion.include QuestionData.row].
    apply orderBy_sorted.
  - destruct (retained_shapes i db) as [result Hres].
    exists result. rewrite getQuestionsByFilter_unfold, Hres.
    split; [reflexivity |].
    apply mapO_Forall2 in Hres.
    induction Hres as [|data q datas qs Hs _ IH]; [reflexivity |].
    cbn [map]. rewrite IH. f_equal.
    apply shape_Returns in Hs. destruct Hs as [first [rest [_ ->]]]. reflexivity.
Qed.

(** X3: an input that widens another one (the same type filter, list
    filters that are empty or supersets, a date range that contains the
    other) retains every Question the other retains. *)
Theorem widened_filter_retains_more
    (wide narrow : getQuestionsByFilter.input) (db : Db) :
  widens wide narrow -> incl (retained narrow db) (retained wide db).
Proof.
  intros Hw data Hin. unfold retained in *.
  apply filter_In in Hin. destruct Hin as [Hf Hkeep]. apply filter_In. split.
  - unfold fetched, getQuestionsByFilter.whereClause in *.
    destruct Hw as [Hty _]. rewrite Hty. exact Hf.
  - unfold getQuestionsByFilter.keep in *. apply anyMatches_iff in Hkeep.
    apply anyMatches_iff. destruct Hkeep as [e [He Hsat]].
    exists e. split; [assumption |].
    exact (widening_keeps_match wide narrow e Hw Hsat).
Qed.

Lemma sample_widened_filter :
  incl (retained (getQuestionsByFilter.mkInput ["B"] 80 [] [] [] (Some 60)) Sample.db)
       (retained (getQuestionsByFilter.mkInput ["A"; "B"] 90 [] [] [] None) Sample.db).
Proof.
  apply (widened_filter_retains_more
           (getQuestionsByFilter.mkInput ["A"; "B"] 90 [] [] [] None)
           (getQuestionsByFilter.mkInput ["B"] 80 [] [] [] (Some 60)) Sample.db).
  unfold widens, listFilterWidens. cbn.
  split; [reflexivity |]. split.
  - right. split; [discriminate |]. intros x [<- | []]. right. left. reflexivity.
  - split; [left; reflexivity |]. split; [left; reflexivity |].
    split; [lia | left; reflexivity].
Defined.

(** ** The order of the rows of a Question *)

Section RowOrder.

Lemma anyMatches_existsb (i : getQuestionsByFilter.input)
    (encs : list QuestionsQuestionEncounter.t) :
  getQuestionsByFilter.anyMatches i encs = existsb (getQuestionsByFilter.matches i) encs.
Proof.
  induction encs as [|e rest IH]; simpl; [reflexivity |].
  rewrite IH. destruct (getQuestionsByFilter.matches i e); reflexivity.
Qed.

Lemma existsb_permutation {A : Type} (p : A -> bool) (l l' : list A) :
  Permutation l l' -> existsb p l = existsb p l'.
Proof.
  induction 1 as [| x l l' _ IH | x y l | l l' l'' _ IH1 _ IH2]; simpl.
  - reflexivity.
  - rewrite IH. reflexivity.
  - destruct (p x), (p y); reflexivity.
  - congruence.
Qed.

Lemma contributions_permutation (vs vs' : list QuestionsQuestionVote.t) :
  Permutation vs vs' ->
  fold_right (fun v acc => contribution v + acc) 0 vs
  = fold_right (fun v acc => contribution v + acc) 0 vs'.
Proof.
  induction 1 as [| x l l' _ IH | x y l | l l' l'' _ IH1 _ IH2]; simpl; lia.
Qed.

Lemma reduceVotes_permutation (vs vs' : list QuestionsQuestionVote.t) :
  Permutation vs vs' -> reduceVotes vs = reduceVotes vs'.
Proof.
  intros Hp. unfold reduceVotes. rewrite !fold_reduceVote.
  rewrite (contributions_permutation vs vs' Hp). reflexivity.
Qed.

Lemma contribution_bounds (v : QuestionsQuestionVote.t) :
  -1 <= contribution v <= 1.
Proof.
  unfold contribution.
  destruct (String.eqb _ Vote.UPVOTE); [lia |].
  destruct (String.eqb _ Vote.DOWNVOTE); lia.
Qed.

Lemma reduceVotes_bounds (vs : list QuestionsQuestionVote.t) :
  - Z.of_nat (length vs) <= reduceVotes vs <= Z.of_nat (length vs).
Proof.
  unfold reduceVotes. rewrite fold_reduceVote.
  induction vs as [|v rest IH]; [simpl; lia |].
  cbn [fold_right length]. rewrite Nat2Z.inj_succ.
  pose proof (contribution_bounds v). lia.
Qed.

End RowOrder.

(** X4: whether a Question is retained and the vote score it shows do not
    depend on the order in which its encounters and votes come back from
    the storage. *)
Theorem keep_and_numVotes_ignore_row_order
    (i : getQuestionsByFilter.input) (data data' : QuestionData.t) :
  Permutation (QuestionData.encounters data) (QuestionData.encounters data') ->
  Permutation (QuestionData.votes data) (QuestionData.votes data') ->
  getQuestionsByFilter.keep i data = getQuestionsByFilter.keep i data'
  /\ forall q q', shape data = Returns q -> shape data' = Returns q' ->
                  Question.numVotes q = Question.numVotes q'.
Proof.
  intros He Hv. split.
  - unfold getQuestionsByFilter.keep. rewrite !anyMatches_existsb.
    apply existsb_permutation. exact He.
  - intros q q' Hq Hq'.
    apply shape_Returns in Hq. destruct Hq as [first [rest [_ ->]]].
    apply shape_Returns in Hq'. destruct Hq' as [first' [rest' [_ ->]]].
    cbn [questionOf Question.numVotes].
    apply reduceVotes_permutation. exact Hv.
Qed.

(** The first encounter, and with it the company shown, does depend on
    that order. *)
Lemma sample_rows_in_other_order :
  let data := questionsQuestion.include Sample.db Sample.twoSum in
  let data' :=
    QuestionData.mk Sample.twoSum 2 1 [Sample.seenAtB; Sample.seenAtA]
      (Some Sample.alice) (rev (QuestionData.votes data)) in
  let i := getQuestionsByFilter.mkInput ["B"] 100 [] [] [] None in
  (getQuestionsByFilter.keep i data = getQuestionsByFilter.keep i data'
   /\ forall q q', shape data = Returns q -> shape data' = Returns q' ->
                   Question.numVotes q = Question.numVotes q')
  /\ (exists q q', shape data = Returns q /\ shape data' = Returns q'
                   /\ Question.company q = "A" /\ Question.company q' = "B").
Proof.
  cbv zeta. split.
  - apply (keep_and_numVotes_ignore_row_order
             (getQuestionsByFilter.mkInput ["B"] 100 [] [] [] None)
             (questionsQuestion.include Sample.db Sample.twoSum)
             (QuestionData.mk Sample.twoSum 2 1 [Sample.seenAtB; Sample.seenAtA]
                (Some Sample.alice)
                (rev (QuestionData.votes
                        (questionsQuestion.include Sample.db Sample.twoSum))))).
    + apply perm_swap.
    + apply Permutation_rev.
  - eexists. eexists. split; [reflexivity |]. split; [reflexivity |].
    split; reflexivity.
Defined.

(** X5: the vote score a query shows lies between minus the number of the
    Question's votes and that number. *)
Theorem numVotes_within_number_of_votes (data : QuestionData.t) (q : Question.t) :
  shape data = Returns q ->
  - Z.of_nat (length (QuestionData.votes data))
  <= Question.numVotes q
  <= Z.of_nat (length (QuestionData.votes data)).
Proof.
  intros H. apply shape_Returns in H. destruct H as [first [rest [_ ->]]].
  cbn [questionOf Question.numVotes]. apply reduceVotes_bounds.
Qed.

Lemma sample_numVotes_within_number_of_votes :
  - Z.of_nat (length (QuestionData.votes
                        (questionsQuestion.include Sample.db Sample.twoSum)))
  <= Question.numVotes Sample.twoSumShown
  <= Z.of_nat (length (QuestionData.votes
                         (questionsQuestion.include Sample.db Sample.twoSum))).
Proof.
  exact (numVotes_within_number_of_votes
           (questionsQuestion.include Sample.db Sample.twoSum) Sample.twoSumShown
           eq_refl).
Defined.

(** ** Reading a vote back *)

Section ReadVote.

Lemma vote_eq_dec (a b : QuestionsQuestionVote.t) : {a = b} + {a <> b}.
Proof.
  decide equality; try apply string_dec.
  decide equality. apply string_dec.
Qed.

Lemma two_members {A : Type} (a b : A) (l : list A) :
  In a l -> In b l -> a <> b -> (2 <= length l)%nat.
Proof.
  destruct l as [|x [|y rest]]; simpl; try lia; try tauto.
  intros [<- | []] [<- | []] Hne. contradiction.
Qed.

Lemma one_vote_with_key (db : Db) (questionId : string) (userId : option string)
    (a b : QuestionsQuestionVote.t) :
  oneVotePerPair db ->
  In a (votes db) -> In b (votes db) ->
  questionsQuestionVote.hasKey questionId userId a = true ->
  questionsQuestionVote.hasKey questionId userId b = true ->
  a = b.
Proof.
  intros Hone Ha Hb Hka Hkb.
  destruct (vote_eq_dec a b) as [Heq | Hne]; [assumption | exfalso].
  specialize (Hone questionId userId). unfold votesOfPair in Hone.
  assert (2 <= length (filter (questionsQuestionVote.hasKey questionId userId)
                         (votes db)))%nat.
  { apply (two_members a b); [apply filter_In | apply filter_In | assumption]; tauto. }
  lia.
Qed.

Lemma find_none_filter {A : Type} (p : A -> bool) (l : list A) :
  find p l = None <-> filter p l = [].
Proof.
  induction l as [|x rest IH]; simpl; [tauto |].
  destruct (p x); [split; discriminate | exact IH].
Qed.

Lemma find_app_none {A : Type} (p : A -> bool) (l l' : list A) :
  find p l = None -> find p (l ++ l') = find p l'.
Proof.
  induction l as [|x rest IH]; simpl; [reflexivity |].
  destruct (p x); [discriminate | exact IH].
Qed.

Lemma find_changeWhere {A : Type} (p : A -> bool) (id : A -> string) (target : string)
    (change : A -> A) (rows : list A) :
  (forall r, p (change r) = p r) ->
  find p (changeWhere id target change rows)
  = option_map (fun r => if String.eqb (id r) target then change r else r)
      (find p rows).
Proof.
  intros Hp. unfold changeWhere.
  induction rows as [|r rest IH]; simpl; [reflexivity |].
  replace (p (if String.eqb (id r) target then change r else r)) with (p r)
    by (destruct (String.eqb (id r) target); [rewrite Hp |]; reflexivity).
  destruct (p r); [reflexivity | exact IH].
Qed.

Lemma getVote_unfold (ctx : Context) (i : getVote.input) (db : Db) :
  getVote.resolve ctx i db
  = match session_user_id ctx with
    | Some _ =>
        (db, Returns (find (questionsQuestionVote.hasKey (getVote.questionId i)
                              (session_user_id ctx)) (votes db)))
    | None => (db, Throws (PrismaError MissingArgument))
    end.
Proof.
  unfold getVote.resolve, questionsQuestionVote.findUniqueByQuestionIdUserId.
  destruct (session_user_id ctx); reflexivity.
Qed.

Lemma getVote_of_user (ctx : Context) (i : getVote.input) (db : Db) (u : string) :
  session_user_id ctx = Some u ->
  getVote.resolve ctx i db
  = (db, Returns (find (questionsQuestionVote.hasKey (getVote.questionId i)
                          (session_user_id ctx)) (votes db))).
Proof. intros Hu. rewrite getVote_unfold, Hu. reflexivity. Qed.

Lemma vote_lookup_Some (id : string) (db : Db) (v : QuestionsQuestionVote.t) :
  questionsQuestionVote.lookup id db = Some v ->
  In v (votes db) /\ QuestionsQuestionVote.id v = id.
Proof.
  unfold questionsQuestionVote.lookup. intros H. apply find_some in H.
  destruct H as [Hin Heq]. apply String.eqb_eq in Heq. split; assumption.
Qed.

Lemma updateVote_Returns (ctx : Context) (i : updateVote.input) (db db' : Db)
    (v' : QuestionsQuestionVote.t) :
  updateVote.resolve ctx i db = (db', Returns v') ->
  exists v,
    questionsQuestionVote.lookup (updateVote.id i) db = Some v
    /\ sameUser (QuestionsQuestionVote.userId v) (session_user_id ctx)
    /\ v' = revoted (updateVote.vote i) v
    /\ db' = withVotes
               (changeWhere QuestionsQuestionVote.id (updateVote.id i)
                  (revoted (updateVote.vote i)) (votes db)) db.
Proof.
  rewrite updateVote_unfold.
  destruct (questionsQuestionVote.lookup (updateVote.id i) db) as [v|] eqn:Hv;
    cbn [optionalChain].
  - destruct (strict_differs _ _) eqn:Hd; [discriminate |].
    apply differs_from_user in Hd.
    rewrite (vote_update_found _ _ _ _ Hv). intros H. injection H as <- <-.
    exists v. repeat split; assumption.
  - destruct (strict_differs _ _); [discriminate |].
    unfold questionsQuestionVote.update. rewrite Hv. discriminate.
Qed.

Lemma deleteVote_Returns (ctx : Context) (i : deleteVote.input) (db db' : Db)
    (v : QuestionsQuestionVote.t) :
  deleteVote.resolve ctx i db = (db', Returns v) ->
  questionsQuestionVote.lookup (deleteVote.id i) db = Some v
  /\ sameUser (QuestionsQuestionVote.userId v) (session_user_id ctx)
  /\ db' = withVotes
             (removeWhere QuestionsQuestionVote.id (deleteVote.id i) (votes db)) db.
Proof.
  rewrite deleteVote_unfold.
  destruct (questionsQuestionVote.lookup (deleteVote.id i) db) as [v0|] eqn:Hv;
    cbn [optionalChain].
  - destruct (strict_differs _ _) eqn:Hd; [discriminate |].
    apply differs_from_user in Hd.
    rewrite (vote_delete_found _ _ _ Hv). intros H. injection H as <- <-.
    repeat split; assumption.
  - destruct (strict_differs _ _); [discriminate |].
    unfold questionsQuestionVote.delete. rewrite Hv. discriminate.
Qed.

Lemma sameUser_hasKey (ctx : Context) (v : QuestionsQuestionVote.t) :
  sameUser (QuestionsQuestionVote.userId v) (session_user_id ctx) ->
  questionsQuestionVote.hasKey (QuestionsQuestionVote.questionId v)
    (session_user_id ctx) v = true.
Proof.
  intros [u [Hv Hc]]. apply hasKey_true. split; congruence.
Qed.

End ReadVote.



(** X7: after a [createVote] by a caller with a userId that returned,
    [getVote] by the same caller for the same Question returns the Vote
    that was created. *)
Theorem getVote_after_createVote
    (ctx : Context) (u : string) (i : createVote.input) (g : Generated)
    (db db' : Db) (v : QuestionsQuestionVote.t) :
  session_user_id ctx = Some u ->
  createVote.resolve ctx i g db = (db', Returns v) ->
  getVote.resolve ctx (getVote.mkInput (createVote.questionId i)) db'
  = (db', Returns (Some v)).
Proof.
  unfold createVote.resolve. intros Hu H.
  apply vote_create_cases in H. destruct H as [Hv [-> Hnone]].
  specialize (Hnone u Hu).
  rewrite (getVote_of_user _ _ _ u Hu). cbn [getVote.questionId votes withVotes].
  unfold votesOfPair in Hnone. apply find_none_filter in Hnone.
  rewrite (find_app_none _ _ _ Hnone). cbn [find].
  replace (questionsQuestionVote.hasKey (createVote.questionId i)
             (session_user_id ctx) v) with true; [reflexivity |].
  symmetry. apply hasKey_true. rewrite Hv. split; reflexivity.
Qed.

Lemma sample_getVote_after_createVote :
  let v := QuestionsQuestionVote.mk "v5" "q2" (Some "u1") Vote.UPVOTE in
  getVote.resolve (Sample.asUser "u1") (getVote.mkInput "q2")
    (withVotes (votes Sample.db ++ [v]) Sample.db)
  = (withVotes (votes Sample.db ++ [v]) Sample.db, Returns (Some v)).
Proof.
  exact (getVote_after_createVote (Sample.asUser "u1") "u1"
           (createVote.mkInput "q2" Vote.UPVOTE) (mkGenerated "v5" 8) Sample.db
           (withVotes (votes Sample.db
                       ++ [QuestionsQuestionVote.mk "v5" "q2" (Some "u1") Vote.UPVOTE])
              Sample.db)
           (QuestionsQuestionVote.mk "v5" "q2" (Some "u1") Vote.UPVOTE)
           eq_refl eq_refl).
Defined.

(** A call without session user can create a Vote and cannot read it back:
    the read is refused. *)
Lemma getVote_without_user (i : getVote.input) (db : Db) :
  getVote.resolve (mkContext None) i db = (db, Throws (PrismaError MissingArgument)).
Proof. reflexivity. Qed.

(** X8: when the tables hold at most one Vote per Question and user, after
    an [updateVote] that returned, [getVote] by the same caller for the
    Vote's Question returns the updated Vote, which carries the new vote and
    the id, Question and user it had. *)
Theorem getVote_after_updateVote
    (ctx : Context) (i : updateVote.input) (db db' : Db)
    (v' : QuestionsQuestionVote.t) :
  oneVotePerPair db ->
  updateVote.resolve ctx i db = (db', Returns v') ->
  getVote.resolve ctx (getVote.mkInput (QuestionsQuestionVote.questionId v')) db'
  = (db', Returns (Some v'))
  /\ QuestionsQuestionVote.vote v' = updateVote.vote i
  /\ QuestionsQuestionVote.id v' = updateVote.id i
  /\ QuestionsQuestionVote.userId v' = session_user_id ctx.
Proof.
  intros Hone H. apply updateVote_Returns in H.
  destruct H as [v [Hv [Hsame [-> ->]]]].
  destruct (vote_lookup_Some _ _ _ Hv) as [Hin Hid].
  pose proof (sameUser_hasKey ctx v Hsame) as Hkey.
  split; [| split; [reflexivity | split; [exact Hid |]]].
  - destruct Hsame as [u [_ Hcaller]].
    rewrite (getVote_of_user _ _ _ u Hcaller).
    cbn [getVote.questionId votes withVotes revoted QuestionsQuestionVote.questionId].
    rewrite find_changeWhere by reflexivity.
    destruct (find _ (votes db)) as [r|] eqn:Hfind.
    + apply find_some in Hfind. destruct Hfind as [Hr Hkr].
      assert (r = v) as -> by (eapply one_vote_with_key; eassumption).
      cbn [option_map]. rewrite Hid, String.eqb_refl. reflexivity.
    + exfalso. pose proof (find_none _ _ Hfind v Hin) as Hno. congruence.
  - destruct Hsame as [u [Hu Hc]]. cbn. congruence.
Qed.

Lemma sample_getVote_after_updateVote :
  let v' := QuestionsQuestionVote.mk "v3" "q1" (Some "u3") Vote.UPVOTE in
  let db' := withVotes
               (changeWhere QuestionsQuestionVote.id "v3" (revoted Vote.UPVOTE)
                  (votes Sample.db)) Sample.db in
  getVote.resolve (Sample.asUser "u3") (getVote.mkInput "q1") db'
  = (db', Returns (Some v'))
  /\ QuestionsQuestionVote.vote v' = Vote.UPVOTE
  /\ QuestionsQuestionVote.id v' = "v3"
  /\ QuestionsQuestionVote.userId v' = Some "u3".
Proof.
  exact (getVote_after_updateVote (Sample.asUser "u3")
           (updateVote.mkInput "v3" Vote.UPVOTE) Sample.db
           (withVotes
              (changeWhere QuestionsQuestionVote.id "v3" (revoted Vote.UPVOTE)
                 (votes Sample.db)) Sample.db)
           (QuestionsQuestionVote.mk "v3" "q1" (Some "u3") Vote.UPVOTE)
           sample_has_one_vote_per_pair eq_refl).
Defined.

(** X9: when the tables hold at most one Vote per Question and user, after
    a [deleteVote] that returned, [getVote] by the same caller for the
    deleted Vote's Question returns [null]. *)
Theorem getVote_after_deleteVote
    (ctx : Context) (i : deleteVote.input) (db db' : Db)
    (v : QuestionsQuestionVote.t) :
  oneVotePerPair db ->
  deleteVote.resolve ctx i db = (db', Returns v) ->
  getVote.resolve ctx (getVote.mkInput (QuestionsQuestionVote.questionId v)) db'
  = (db', Returns None).
Proof.
  intros Hone H. apply deleteVote_Returns in H. destruct H as [Hv [Hsame ->]].
  destruct (vote_lookup_Some _ _ _ Hv) as [Hin Hid].
  pose proof (sameUser_hasKey ctx v Hsame) as Hkey.
  destruct Hsame as [u [_ Hcaller]].
  rewrite (getVote_of_user _ _ _ u Hcaller).
  cbn [getVote.questionId votes withVotes].
  destruct (find _ _) as [r|] eqn:Hfind; [exfalso | reflexivity].
  apply find_some in Hfind. destruct Hfind as [Hr Hkr].
  apply removeWhere_In in Hr. destruct Hr as [Hr Hne].
  assert (r = v) by (eapply one_vote_with_key; eassumption).
  congruence.
Qed.

Lemma sample_getVote_after_deleteVote :
  getVote.resolve (Sample.asUser "u3") (getVote.mkInput "q1")
    (withVotes (removeWhere QuestionsQuestionVote.id "v3" (votes Sample.db)) Sample.db)
  = (withVotes (removeWhere QuestionsQuestionVote.id "v3" (votes Sample.db)) Sample.db,
     Returns None).
Proof.
  exact (getVote_after_deleteVote (Sample.asUser "u3") (deleteVote.mkInput "v3")
           Sample.db
           (withVotes (removeWhere QuestionsQuestionVote.id "v3" (votes Sample.db))
              Sample.db)
           (QuestionsQuestionVote.mk "v3" "q1" (Some "u3") Vote.DOWNVOTE)
           sample_has_one_vote_per_pair eq_refl).
Defined.

(** ** Mutations seen through the queries *)

Section Composition.

Lemma reduceVotes_snoc (vs : list QuestionsQuestionVote.t) (v : QuestionsQuestionVote.t) :
  reduceVotes (vs ++ [v]) = reduceVotes vs + contribution v.
Proof.
  unfold reduceVotes. rewrite fold_left_app. cbn [fold_left].
  apply reduceVote_contribution.
Qed.

Lemma update_Returns (ctx : Context) (i : update.input) (db db' : Db)
    (q' : QuestionsQuestion.t) :
  update.resolve ctx i db = (db', Returns q') ->
  exists q,
    questionsQuestion.lookup (update.id i) db = Some q
    /\ session_user_id ctx = Some (update.id i)
    /\ q' = partiallyUpdated (update.content i) (update.questionType i) q
    /\ db' = withQuestions
               (changeWhere QuestionsQuestion.id (update.id i)
                  (partiallyUpdated (update.content i) (update.questionType i))
                  (questions db)) db.
Proof.
  rewrite update_unfold.
  destruct (questionsQuestion.lookup (update.id i) db) as [q|] eqn:Hq;
    cbn [optionalChain].
  - destruct (strict_differs _ _) eqn:Hd; [discriminate |].
    apply differs_from_id in Hd.
    rewrite (questionsQuestion_update_found _ _ _ _ _ Hq).
    intros H. injection H as <- <-.
    destruct (lookup_Some_id _ _ _ Hq) as [_ Hid].
    exists q. repeat split; congruence.
  - destruct (strict_differs _ _); [discriminate |].
    unfold questionsQuestion.update. rewrite Hq. discriminate.
Qed.

Lemma delete_Returns (ctx : Context) (i : delete.input) (db db' : Db)
    (q : QuestionsQuestion.t) :
  delete.resolve ctx i db = (db', Returns q) ->
  questionsQuestion.lookup (delete.id i) db = Some q
  /\ session_user_id ctx = Some (delete.id i)
  /\ db' = withQuestions
             (removeWhere QuestionsQuestion.id (delete.id i) (questions db)) db.
Proof.
  rewrite delete_unfold.
  destruct (questionsQuestion.lookup (delete.id i) db) as [q0|] eqn:Hq;
    cbn [optionalChain].
  - destruct (strict_differs _ _) eqn:Hd; [discriminate |].
    apply differs_from_id in Hd.
    rewrite (questionsQuestion_delete_found _ _ _ Hq).
    intros H. injection H as <- <-.
    destruct (lookup_Some_id _ _ _ Hq) as [_ Hid].
    repeat split; congruence.
  - destruct (strict_differs _ _); [discriminate |].
    unfold questionsQuestion.delete. rewrite Hq. discriminate.
Qed.

Lemma changeWhere_question_lookup (id : string) (change : QuestionsQuestion.t -> QuestionsQuestion.t)
    (db : Db) (q : QuestionsQuestion.t) :
  (forall r, QuestionsQuestion.id (change r) = QuestionsQuestion.id r) ->
  questionsQuestion.lookup id db = Some q ->
  questionsQuestion.lookup id
    (withQuestions (changeWhere QuestionsQuestion.id id change (questions db)) db)
  = Some (change q).
Proof.
  intros Hid. unfold questionsQuestion.lookup, withQuestions, changeWhere.
  cbn [questions].
  induction (questions db) as [|r rest IH]; simpl; [discriminate |].
  destruct (String.eqb (QuestionsQuestion.id r) id) eqn:Hr; simpl.
  - intros H. injection H as ->. rewrite Hid, Hr. reflexivity.
  - rewrite Hr. exact IH.
Qed.

Lemma removeWhere_question_lookup (id : string) (db : Db) :
  questionsQuestion.lookup id
    (withQuestions (removeWhere QuestionsQuestion.id id (questions db)) db) = None.
Proof.
  unfold questionsQuestion.lookup, withQuestions. cbn [questions].
  destruct (find _ _) as [r|] eqn:Hf; [| reflexivity].
  apply find_some in Hf. destruct Hf as [Hin Heq].
  apply removeWhere_In in Hin. apply String.eqb_eq in Heq. tauto.
Qed.

(** [update] and [delete] with an id that is not the caller's userId. *)
Lemma update_other_id (ctx : Context) (i : update.input) (db : Db) :
  session_user_id ctx <> Some (update.id i) ->
  update.resolve ctx i db
  = (db, Throws (match session_user_id ctx,
                       questionsQuestion.lookup (update.id i) db with
                 | None, None => PrismaError RecordNotFound
                 | _, _ => TRPCError UNAUTHORIZED
                 end)).
Proof.
  intros Hne. rewrite update_unfold.
  destruct (questionsQuestion.lookup (update.id i) db) as [q|] eqn:Hq;
    cbn [optionalChain].
  - destruct (lookup_Some_id _ _ _ Hq) as [_ Hid].
    destruct (strict_differs _ _) eqn:Hd.
    + destruct (session_user_id ctx); reflexivity.
    + apply differs_from_id in Hd. congruence.
  - destruct (session_user_id ctx) as [u|]; [reflexivity |].
    cbn. unfold questionsQuestion.update. rewrite Hq. reflexivity.
Qed.

Lemma delete_other_id (ctx : Context) (i : delete.input) (db : Db) :
  session_user_id ctx <> Some (delete.id i) ->
  delete.resolve ctx i db
  = (db, Throws (match session_user_id ctx,
                       questionsQuestion.lookup (delete.id i) db with
                 | None, None => PrismaError RecordNotFound
                 | _, _ => TRPCError UNAUTHORIZED
                 end)).
Proof.
  intros Hne. rewrite delete_unfold.
  destruct (questionsQuestion.lookup (delete.id i) db) as [q|] eqn:Hq;
    cbn [optionalChain].
  - destruct (lookup_Some_id _ _ _ Hq) as [_ Hid].
    destruct (strict_differs _ _) eqn:Hd.
    + destruct (session_user_id ctx); reflexivity.
    + apply differs_from_id in Hd. congruence.
  - destruct (session_user_id ctx) as [u|]; [reflexivity |].
    cbn. unfold questionsQuestion.delete. rewrite Hq. reflexivity.
Qed.

End Composition.

(** X10: [update] and [delete] act only for a caller whose userId is the
    id in the input: for every other caller, the creator of the Question
    included, and for a call without session user, they throw and leave the
    tables as they were, UNAUTHORIZED whenever the caller has a userId. *)
Theorem update_delete_act_only_on_the_callers_own_id :
  (forall ctx i db,
      session_user_id ctx <> Some (update.id i) ->
      fst (update.resolve ctx i db) = db
      /\ (forall q, snd (update.resolve ctx i db) <> Returns q)
      /\ (forall u, session_user_id ctx = Some u ->
                    update.resolve ctx i db = (db, Throws (TRPCError UNAUTHORIZED))))
  /\ (forall ctx i db,
         session_user_id ctx <> Some (delete.id i) ->
         fst (delete.resolve ctx i db) = db
         /\ (forall q, snd (delete.resolve ctx i db) <> Returns q)
         /\ (forall u, session_user_id ctx = Some u ->
                       delete.resolve ctx i db
                       = (db, Throws (TRPCError UNAUTHORIZED)))).
Proof.
  split; intros ctx i db Hne.
  - rewrite (update_other_id ctx i db Hne). cbn [fst snd].
    split; [reflexivity | split; [discriminate |]].
    intros u ->. reflexivity.
  - rewrite (delete_other_id ctx i db Hne). cbn [fst snd].
    split; [reflexivity | split; [discriminate |]].
    intros u ->. reflexivity.
Qed.

Lemma sample_update_by_the_owner :
  fst (update.resolve (Sample.asUser "u1")
         (update.mkInput (Some "Three sum") "q1" None) Sample.db) = Sample.db
  /\ (forall q, snd (update.resolve (Sample.asUser "u1")
                       (update.mkInput (Some "Three sum") "q1" None) Sample.db)
                <> Returns q)
  /\ (forall u, session_user_id (Sample.asUser "u1") = Some u ->
                update.resolve (Sample.asUser "u1")
                  (update.mkInput (Some "Three sum") "q1" None) Sample.db
                = (Sample.db, Throws (TRPCError UNAUTHORIZED))).
Proof.
  apply (proj1 update_delete_act_only_on_the_callers_own_id (Sample.asUser "u1")
           (update.mkInput (Some "Three sum") "q1" None) Sample.db).
  discriminate.
Defined.

(** X11: a [createVote] that returned moves the vote score that
    [getQuestionById] shows for the voted Question by +1 for an UPVOTE and
    by -1 for a DOWNVOTE, and changes nothing else in the record; the record
    of any other Question stays as it was. *)
Theorem createVote_moves_numVotes
    (ctx ctx' : Context) (iv : createVote.input) (g : Generated)
    (iq : getQuestionById.input) (db db1 : Db)
    (v : QuestionsQuestionVote.t) (q : Question.t) :
  createVote.resolve ctx iv g db = (db1, Returns v) ->
  getQuestionById.resolve ctx' iq db = (db, Returns q) ->
  getQuestionById.resolve ctx' iq db1
  = (db1,
     Returns (setNumVotes
                (Question.numVotes q
                 + (if String.eqb (createVote.questionId iv) (getQuestionById.id iq)
                    then contribution v else 0)) q))
  /\ contribution v
     = (if String.eqb (createVote.vote iv) Vote.UPVOTE then 1
        else if String.eqb (createVote.vote iv) Vote.DOWNVOTE then -1 else 0).
Proof.
  unfold createVote.resolve. intros Hc Hq.
  apply vote_create_cases in Hc. destruct Hc as [Hv [-> _]].
  apply getQuestionById_Returns in Hq. destruct Hq as [_ [row [Hrow Hs]]].
  split; [| rewrite Hv; reflexivity].
  rewrite getQuestionById_unfold.
  change (questionsQuestion.lookup (getQuestionById.id iq)
            (withVotes (votes db ++ [v]) db))
    with (questionsQuestion.lookup (getQuestionById.id iq) db).
  rewrite Hrow. f_equal.
  destruct (lookup_Some_id _ _ _ Hrow) as [_ Hid].
  apply shape_Returns in Hs. destruct Hs as [first [rest [He ->]]].
  cbn [questionsQuestion.include QuestionData.encounters QuestionData.votes] in He.
  unfold shape.
  cbn [questionsQuestion.include QuestionData.encounters QuestionData.votes
         withVotes encounters votes answers comments users].
  rewrite He. cbn [nth_error]. f_equal.
  unfold ofQuestion at 1. rewrite filter_app. cbn [filter].
  replace (QuestionsQuestionVote.questionId v) with (createVote.questionId iv)
    by (rewrite Hv; reflexivity).
  rewrite Hid.
  destruct (String.eqb (createVote.questionId iv) (getQuestionById.id iq)).
  - fold (ofQuestion QuestionsQuestionVote.questionId (getQuestionById.id iq) (votes db)).
    rewrite reduceVotes_snoc. rewrite <- Hid. reflexivity.
  - rewrite app_nil_r.
    fold (ofQuestion QuestionsQuestionVote.questionId (getQuestionById.id iq) (votes db)).
    rewrite Z.add_0_r. rewrite <- Hid. reflexivity.
Qed.

Lemma sample_createVote_moves_numVotes :
  let v := QuestionsQuestionVote.mk "v5" "q1" (Some "u9") Vote.DOWNVOTE in
  getQuestionById.resolve Sample.anonymous (getQuestionById.mkInput "q1")
    (withVotes (votes Sample.db ++ [v]) Sample.db)
  = (withVotes (votes Sample.db ++ [v]) Sample.db,
     Returns (setNumVotes (2 + -1) Sample.twoSumShown))
  /\ contribution v = -1.
Proof.
  exact (createVote_moves_numVotes (Sample.asUser "u9") Sample.anonymous
           (createVote.mkInput "q1" Vote.DOWNVOTE) (mkGenerated "v5" 8)
           (getQuestionById.mkInput "q1") Sample.db
           (withVotes (votes Sample.db
                       ++ [QuestionsQuestionVote.mk "v5" "q1" (Some "u9") Vote.DOWNVOTE])
              Sample.db)
           (QuestionsQuestionVote.mk "v5" "q1" (Some "u9") Vote.DOWNVOTE)
           Sample.twoSumShown eq_refl eq_refl).
Defined.

(** X12: after an [update] that returned, [getQuestionById] shows the
    Question with the content and the type that were given, the old ones
    where none was given, and with every other field but updatedAt as
    before. *)
Theorem getQuestionById_after_update
    (ctx ctx' : Context) (i : update.input) (db db' : Db)
    (q' : QuestionsQuestion.t) (shown : Question.t) :
  update.resolve ctx i db = (db', Returns q') ->
  getQuestionById.resolve ctx' (getQuestionById.mkInput (update.id i)) db
  = (db, Returns shown) ->
  exists shown',
    getQuestionById.resolve ctx' (getQuestionById.mkInput (update.id i)) db'
    = (db', Returns shown')
    /\ Question.content shown'
       = nullish (update.content i) (Question.content shown)
    /\ Question.type shown'
       = nullish (update.questionType i) (Question.type shown)
    /\ besidesContentTypeAndUpdatedAt shown' = besidesContentTypeAndUpdatedAt shown.
Proof.
  intros Hu Hq. apply update_Returns in Hu.
  destruct Hu as [q0 [Hq0 [_ [-> ->]]]].
  apply getQuestionById_Returns in Hq. destruct Hq as [_ [row [Hrow Hs]]].
  cbn [getQuestionById.id] in Hrow. rewrite Hq0 in Hrow. injection Hrow as <-.
  rewrite getQuestionById_unfold. cbn [getQuestionById.id].
  rewrite (changeWhere_question_lookup (update.id i)
             (partiallyUpdated (update.content i) (update.questionType i))
             db q0 (fun r => eq_refl) Hq0).
  apply shape_Returns in Hs. destruct Hs as [first [rest [He ->]]].
  cbn [questionsQuestion.include QuestionData.encounters] in He.
  unfold shape.
  cbn [questionsQuestion.include QuestionData.encounters QuestionData.votes
         withQuestions encounters votes answers comments users partiallyUpdated
         QuestionsQuestion.id QuestionsQuestion.userId].
  rewrite He. cbn [nth_error].
  eexists. split; [reflexivity |].
  destruct (update.content i), (update.questionType i);
    split; [reflexivity | split; reflexivity | reflexivity | split; reflexivity
           | reflexivity | split; reflexivity | reflexivity | split; reflexivity].
Qed.

Lemma sample_getQuestionById_after_update :
  exists shown',
    getQuestionById.resolve Sample.anonymous (getQuestionById.mkInput "q1")
      (withQuestions
         [QuestionsQuestion.mk "q1" (Some "u1") "Three sum" "CODING" 100 100;
          Sample.cache] Sample.db)
    = (withQuestions
         [QuestionsQuestion.mk "q1" (Some "u1") "Three sum" "CODING" 100 100;
          Sample.cache] Sample.db,
       Returns shown')
    /\ Question.content shown' = "Three sum"
    /\ Question.type shown' = "CODING"
    /\ besidesContentTypeAndUpdatedAt shown'
       = besidesContentTypeAndUpdatedAt Sample.twoSumShown.
Proof.
  exact (getQuestionById_after_update (Sample.asUser "q1") Sample.anonymous
           (update.mkInput (Some "Three sum") "q1" None) Sample.db
           (withQuestions
              [QuestionsQuestion.mk "q1" (Some "u1") "Three sum" "CODING" 100 100;
               Sample.cache] Sample.db)
           (QuestionsQuestion.mk "q1" (Some "u1") "Three sum" "CODING" 100 100)
           Sample.twoSumShown eq_refl eq_refl).
Defined.

(** X13: after a [delete] that returned, [getQuestionById] throws NOT_FOUND
    for the deleted id and [getQuestionsByFilter] retains no Question with
    that id, whatever the filter. *)
Theorem deleted_question_is_gone
    (ctx : Context) (i : delete.input) (db db' : Db) (q : QuestionsQuestion.t) :
  delete.resolve ctx i db = (db', Returns q) ->
  (forall ctx', getQuestionById.resolve ctx' (getQuestionById.mkInput (delete.id i)) db'
                = (db', Throws (TRPCError NOT_FOUND)))
  /\ (forall filter data,
         In data (retained filter db') ->
         QuestionsQuestion.id (QuestionData.row data) <> delete.id i).
Proof.
  intros H. apply delete_Returns in H. destruct H as [_ [_ ->]]. split.
  - intros ctx'. rewrite getQuestionById_unfold. cbn [getQuestionById.id].
    rewrite removeWhere_question_lookup. reflexivity.
  - intros filter data Hin. unfold retained in Hin.
    rewrite filter_In, fetched_In in Hin.
    destruct Hin as [[row [Hrow [-> _]]] _].
    cbn [withQuestions questions] in Hrow. apply removeWhere_In in Hrow.
    cbn [questionsQuestion.include QuestionData.row]. tauto.
Qed.

Lemma sample_deleted_question_is_gone :
  (forall ctx', getQuestionById.resolve ctx' (getQuestionById.mkInput "q1")
                  (withQuestions [Sample.cache] Sample.db)
                = (withQuestions [Sample.cache] Sample.db,
                   Throws (TRPCError NOT_FOUND)))
  /\ (forall filter data,
         In data (retained filter (withQuestions [Sample.cache] Sample.db)) ->
         QuestionsQuestion.id (QuestionData.row data) <> "q1").
Proof.
  exact (deleted_question_is_gone (Sample.asUser "q1") (delete.mkInput "q1")
           Sample.db (withQuestions [Sample.cache] Sample.db) Sample.twoSum eq_refl).
Defined.

Lemma ofQuestion_app {A : Type} (questionId : A -> string) (qid : string)
    (rows rows' : list A) :
  ofQuestion questionId qid (rows ++ rows')
  = (ofQuestion questionId qid rows ++ ofQuestion questionId qid rows')%list.
Proof. unfold ofQuestion. apply filter_app. Qed.

Lemma create_Returns_fresh (ctx : Context) (i : create.input) (g : create.generated)
    (db db' : Db) (question : QuestionsQuestion.t) :
  create.resolve ctx i g db = (db', Returns question) ->
  questionsQuestion.lookup (new_id (create.forQuestion g)) db = None.
Proof.
  rewrite create_cases.
  destruct (questionsQuestion.lookup _ db); [discriminate | reflexivity].
Qed.

(** X14: after a [create] that returned, when no stored encounter referred
    to the new id beforehand, [getQuestionById] returns for the new Question
    a record with the company, content, location, role, seenAt and type of
    the input. *)
Theorem getQuestionById_after_create
    (ctx ctx' : Context) (i : create.input) (g : create.generated) (db db' : Db)
    (question : QuestionsQuestion.t) :
  create.resolve ctx i g db = (db', Returns question) ->
  ofQuestion QuestionsQuestionEncounter.questionId (QuestionsQuestion.id question)
    (encounters db) = [] ->
  exists shown,
    getQuestionById.resolve ctx'
      (getQuestionById.mkInput (QuestionsQuestion.id question)) db'
    = (db', Returns shown)
    /\ Question.id shown = QuestionsQuestion.id question
    /\ Question.company shown = create.company i
    /\ Question.content shown = create.content i
    /\ Question.location shown = create.location i
    /\ Question.role shown = create.role i
    /\ Question.seenAt shown = create.seenAt i
    /\ Question.type shown = create.questionType i.
Proof.
  intros Hc Hnone.
  pose proof (create_Returns_fresh _ _ _ _ _ _ Hc) as Hfresh.
  apply create_Returns in Hc. destruct Hc as [-> ->].
  cbn [createdQuestion QuestionsQuestion.id] in *.
  rewrite getQuestionById_unfold. cbn [getQuestionById.id].
  unfold questionsQuestion.lookup in *. cbn [questions].
  rewrite (find_app_none _ _ _ Hfresh). cbn [find QuestionsQuestion.id].
  rewrite String.eqb_refl.
  unfold shape.
  cbn [questionsQuestion.include QuestionData.encounters encounters
         QuestionsQuestion.id].
  cbn [createdQuestion QuestionsQuestion.id].
  rewrite (ofQuestion_app QuestionsQuestionEncounter.questionId), Hnone.
  cbn [app ofQuestion filter matchingEncounter QuestionsQuestionEncounter.questionId].
  rewrite String.eqb_refl. cbn [nth_error].
  eexists. split; [reflexivity |]. repeat split.
Qed.

Lemma sample_getQuestionById_after_create :
  exists shown,
    getQuestionById.resolve Sample.anonymous (getQuestionById.mkInput "q3")
      (mkDb (users Sample.db)
            (questions Sample.db
             ++ [QuestionsQuestion.mk "q3" (Some "u1") "LRU" "CODING" 300 300])
            (encounters Sample.db
             ++ [QuestionsQuestionEncounter.mk "e3" "q3" (Some "u1") "C"
                   (Some "London") (Some "Intern") 90;
                 QuestionsQuestionEncounter.mk "e4" "q3" (Some "u1") "C"
                   (Some "London") (Some "Intern") 90])
            (votes Sample.db) (answers Sample.db) (comments Sample.db))
    = (mkDb (users Sample.db)
            (questions Sample.db
             ++ [QuestionsQuestion.mk "q3" (Some "u1") "LRU" "CODING" 300 300])
            (encounters Sample.db
             ++ [QuestionsQuestionEncounter.mk "e3" "q3" (Some "u1") "C"
                   (Some "London") (Some "Intern") 90;
                 QuestionsQuestionEncounter.mk "e4" "q3" (Some "u1") "C"
                   (Some "London") (Some "Intern") 90])
            (votes Sample.db) (answers Sample.db) (comments Sample.db),
       Returns shown)
    /\ Question.id shown = "q3"
    /\ Question.company shown = "C"
    /\ Question.content shown = "LRU"
    /\ Question.location shown = "London"
    /\ Question.role shown = "Intern"
    /\ Question.seenAt shown = 90
    /\ Question.type shown = "CODING".
Proof.
  exact (getQuestionById_after_create (Sample.asUser "u1") Sample.anonymous
           (create.mkInput "C" "LRU" "London" "CODING" "Intern" 90)
           (create.mkGenerated3 (mkGenerated "q3" 300) (mkGenerated "e3" 300)
              (mkGenerated "e4" 300))
           Sample.db
           (mkDb (users Sample.db)
                 (questions Sample.db
                  ++ [QuestionsQuestion.mk "q3" (Some "u1") "LRU" "CODING" 300 300])
                 (encounters Sample.db
                  ++ [QuestionsQuestionEncounter.mk "e3" "q3" (Some "u1") "C"
                        (Some "London") (Some "Intern") 90;
                      QuestionsQuestionEncounter.mk "e4" "q3" (Some "u1") "C"
                        (Some "London") (Some "Intern") 90])
                 (votes Sample.db) (answers Sample.db) (comments Sample.db))
           (QuestionsQuestion.mk "q3" (Some "u1") "LRU" "CODING" 300 300)
           eq_refl eq_refl).
Defined.

(** X15: after a [create] that returned, [getQuestionsByFilter] retains the
    new Question for every filter that lets its type through and that the
    company, location, role and seenAt of the input satisfy. *)
Theorem created_question_is_listed
    (ctx : Context) (i : create.input) (g : create.generated) (db db' : Db)
    (question : QuestionsQuestion.t) (filter : getQuestionsByFilter.input) :
  create.resolve ctx i g db = (db', Returns question) ->
  typeFilterMatches filter question ->
  encounterSatisfies filter
    (matchingEncounter ctx i (QuestionsQuestion.id question)
       (create.forNestedEncounter g)) ->
  In (questionsQuestion.include db' question) (retained filter db').
Proof.
  intros Hc Hty Hsat. apply create_Returns in Hc. destruct Hc as [-> ->].
  unfold retained. apply filter_In. split.
  - apply fetched_In. eexists. split; [| split; [reflexivity | exact Hty]].
    cbn [questions]. apply in_or_app. right. left. reflexivity.
  - unfold getQuestionsByFilter.keep. apply anyMatches_iff.
    eexists. split; [| exact Hsat].
    cbn [questionsQuestion.include QuestionData.encounters encounters].
    apply ofQuestion_In. split; [| reflexivity].
    apply in_or_app. right. left. reflexivity.
Qed.

Lemma sample_created_question_is_listed :
  let db' :=
    mkDb (users Sample.db)
         (questions Sample.db
          ++ [QuestionsQuestion.mk "q3" (Some "u1") "LRU" "CODING" 300 300])
         (encounters Sample.db
          ++ [QuestionsQuestionEncounter.mk "e3" "q3" (Some "u1") "C"
                (Some "London") (Some "Intern") 90;
              QuestionsQuestionEncounter.mk "e4" "q3" (Some "u1") "C"
                (Some "London") (Some "Intern") 90])
         (votes Sample.db) (answers Sample.db) (comments Sample.db) in
  In (questionsQuestion.include db'
        (QuestionsQuestion.mk "q3" (Some "u1") "LRU" "CODING" 300 300))
     (retained (getQuestionsByFilter.mkInput ["C"] 100 ["London"] ["CODING"] [] None)
        db').
Proof.
  apply (created_question_is_listed (Sample.asUser "u1")
           (create.mkInput "C" "LRU" "London" "CODING" "Intern" 90)
           (create.mkGenerated3 (mkGenerated "q3" 300) (mkGenerated "e3" 300)
              (mkGenerated "e4" 300))
           Sample.db _
           (QuestionsQuestion.mk "q3" (Some "u1") "LRU" "CODING" 300 300)
           (getQuestionsByFilter.mkInput ["C"] 100 ["London"] ["CODING"] [] None)
           eq_refl).
  - right. left. reflexivity.
  - unfold encounterSatisfies, listFilterMatches, withinDates. cbn.
    split; [right; exists "C"; split; [reflexivity | left; reflexivity] |].
    split; [right; exists "London"; split; [reflexivity | left; reflexivity] |].
    split; [left; reflexivity |].
    split; [discriminate | lia].
Defined.

(** ** The question draft dialog *)

Section DialogFacts.

Import ContributeQuestionDialog.

Variable Data : Type.

Lemma run_cons (e : Event Data) (rest : list (Event Data)) (s : bool) :
  run (e :: rest) s
  = (fst (run rest (fst (handle e s))),
     (snd (handle e s) ++ snd (run rest (fst (handle e s))))%list).
Proof.
  cbn [run]. destruct (handle e s) as [s1 calls].
  cbn [fst snd]. destruct (run rest s1) as [s2 calls2]. reflexivity.
Qed.

Lemma handle_calls (e : Event Data) (s : bool) :
  snd (handle e s)
  = match e with
    | DialogClose | DiscardConfirm => [onCancel]
    | FormSubmit data => [onSubmit data; onCancel]
    | FormDiscard | DiscardCancel => []
    end.
Proof. destruct e; reflexivity. Qed.

End DialogFacts.


(** X17: after any sequence of events the discard dialog is shown exactly
    when the last event that touches it is the form's discard; closing the
    dialog and submitting the form leave it as it is. *)
Theorem discard_dialog_follows_last_discard_event
    (Data : Type) (events : list (ContributeQuestionDialog.Event Data))
    (showDiscardDialog : bool) :
  fst (ContributeQuestionDialog.run events showDiscardDialog)
  = match ContributeQuestionDialog.lastDiscardState events with
    | Some shown => shown
    | None => showDiscardDialog
    end.
Proof.
  revert showDiscardDialog.
  induction events as [|e rest IH]; intros s; [reflexivity |].
  rewrite run_cons. cbn [fst ContributeQuestionDialog.lastDiscardState].
  rewrite IH.
  destruct (ContributeQuestionDialog.lastDiscardState rest); [reflexivity |].
  destruct e; reflexivity.
Qed.

(** ** Edge cases of the inputs *)

Section Edges.

Lemma partiallyUpdated_nothing (q : QuestionsQuestion.t) :
  partiallyUpdated None None q = q.
Proof. destruct q; reflexivity. Qed.

Lemma partiallyUpdated_twice (content questionType : option string)
    (q : QuestionsQuestion.t) :
  partiallyUpdated content questionType (partiallyUpdated content questionType q)
  = partiallyUpdated content questionType q.
Proof. destruct content, questionType; reflexivity. Qed.

Lemma changeWhere_twice {A : Type} (id : A -> string) (target : string)
    (change : A -> A) (rows : list A) :
  (forall r, id (change r) = id r) ->
  (forall r, change (change r) = change r) ->
  changeWhere id target change (changeWhere id target change rows)
  = changeWhere id target change rows.
Proof.
  intros Hid Htwice. unfold changeWhere. rewrite map_map. apply map_ext.
  intros r. destruct (String.eqb (id r) target) eqn:Hr.
  - rewrite Hid, Hr. apply Htwice.
  - rewrite Hr. reflexivity.
Qed.

Lemma changeWhere_same {A : Type} (id : A -> string) (target : string)
    (change : A -> A) (rows : list A) :
  (forall r, change r = r) -> changeWhere id target change rows = rows.
Proof.
  intros Hsame. unfold changeWhere. rewrite <- (map_id rows) at 2.
  apply map_ext. intros r. destruct (String.eqb (id r) target); [apply Hsame | reflexivity].
Qed.

Lemma withQuestions_same (db : Db) : withQuestions (questions db) db = db.
Proof. destruct db; reflexivity. Qed.

Lemma empty_range_matches_nothing (i : getQuestionsByFilter.input)
    (encs : list QuestionsQuestionEncounter.t) (start : Z) :
  getQuestionsByFilter.startDate i = Some start ->
  getQuestionsByFilter.endDate i < start ->
  getQuestionsByFilter.anyMatches i encs = false.
Proof.
  intros Hs Hlt.
  destruct (getQuestionsByFilter.anyMatches i encs) eqn:Hm; [| reflexivity].
  apply anyMatches_iff in Hm. destruct Hm as [e [_ [_ [_ [_ [Hfrom Hto]]]]]].
  specialize (Hfrom start Hs). lia.
Qed.

End Edges.

(** X18: an [update] that returned and is repeated returns again, and
    the row it returns and the rows of the tables are then as the first
    call left them but for updatedAt; an [update] that gives neither
    content nor type changes nothing but updatedAt. *)
Theorem update_is_idempotent_but_for_updatedAt
    (ctx : Context) (i : update.input) (db db' : Db) (q' : QuestionsQuestion.t) :
  update.resolve ctx i db = (db', Returns q') ->
  (exists db'' q'',
      update.resolve ctx i db' = (db'', Returns q'')
      /\ besidesUpdatedAt q'' = besidesUpdatedAt q'
      /\ map besidesUpdatedAt (questions db'') = map besidesUpdatedAt (questions db')
      /\ users db'' = users db' /\ encounters db'' = encounters db'
      /\ votes db'' = votes db' /\ answers db'' = answers db'
      /\ comments db'' = comments db')
  /\ (update.content i = None -> update.questionType i = None ->
      map besidesUpdatedAt (questions db') = map besidesUpdatedAt (questions db)
      /\ exists q, questionsQuestion.lookup (update.id i) db = Some q
                   /\ besidesUpdatedAt q' = besidesUpdatedAt q).
Proof.
  intros H. apply update_Returns in H. destruct H as [q [Hq [Hcaller [-> ->]]]].
  split.
  - assert (Hq' : questionsQuestion.lookup (update.id i)
                    (withQuestions
                       (changeWhere QuestionsQuestion.id (update.id i)
                          (partiallyUpdated (update.content i) (update.questionType i))
                          (questions db)) db)
                  = Some (partiallyUpdated (update.content i)
                            (update.questionType i) q)).
    { apply changeWhere_question_lookup; [reflexivity | exact Hq]. }
    eexists. eexists. split.
    + rewrite update_unfold, Hq'. cbn [optionalChain].
      replace (strict_differs _ _) with false.
      * apply (questionsQuestion_update_found _ _ _ _ _ Hq').
      * symmetry. apply differs_from_id.
        destruct (lookup_Some_id _ _ _ Hq) as [_ Hid]. cbn. congruence.
    + cbn [withQuestions questions users encounters votes answers comments].
      rewrite changeWhere_twice;
        [| reflexivity | intros r; apply partiallyUpdated_twice].
      rewrite partiallyUpdated_twice. repeat split.
  - intros Hc Ht. rewrite Hc, Ht. cbn [withQuestions questions].
    rewrite changeWhere_same by apply partiallyUpdated_nothing.
    rewrite partiallyUpdated_nothing.
    split; [reflexivity |]. exists q. split; [exact Hq | reflexivity].
Qed.

Lemma sample_empty_update :
  map besidesUpdatedAt
    (questions (fst (update.resolve (Sample.asUser "q1")
                       (update.mkInput None "q1" None) Sample.db)))
  = map besidesUpdatedAt (questions Sample.db)
  /\ exists q, questionsQuestion.lookup "q1" Sample.db = Some q
               /\ besidesUpdatedAt Sample.twoSum = besidesUpdatedAt q.
Proof.
  exact (proj2 (update_is_idempotent_but_for_updatedAt
                  (Sample.asUser "q1") (update.mkInput None "q1" None) Sample.db
                  (fst (update.resolve (Sample.asUser "q1")
                          (update.mkInput None "q1" None) Sample.db))
                  Sample.twoSum eq_refl) eq_refl eq_refl).
Defined.

(** X19: with a start date after the end date [getQuestionsByFilter]
    returns the empty list, whatever is stored and whatever the other
    filters are. *)
Theorem empty_date_range_returns_nothing
    (ctx : Context) (i : getQuestionsByFilter.input) (db : Db) (start : Z) :
  getQuestionsByFilter.startDate i = Some start ->
  getQuestionsByFilter.endDate i < start ->
  getQuestionsByFilter.resolve ctx i db = (db, Returns []).
Proof.
  intros Hs Hlt. rewrite getQuestionsByFilter_unfold.
  replace (retained i db) with (@nil QuestionData.t); [reflexivity |].
  symmetry. unfold retained.
  induction (fetched i db) as [|data rest IH]; [reflexivity |].
  cbn [filter]. unfold getQuestionsByFilter.keep at 1.
  rewrite (empty_range_matches_nothing i _ start Hs Hlt). exact IH.
Qed.

Lemma sample_empty_date_range :
  getQuestionsByFilter.resolve Sample.anonymous
    (getQuestionsByFilter.mkInput [] 10 [] [] [] (Some 20)) Sample.db
  = (Sample.db, Returns []).
Proof.
  apply (empty_date_range_returns_nothing Sample.anonymous
           (getQuestionsByFilter.mkInput [] 10 [] [] [] (Some 20)) Sample.db 20).
  - reflexivity.
  - cbn. lia.
Defined.
